(** * Aadhaar analysis dashboard: metric calculators and insight generator

    A shallow embedding of [src/analysis.py] and [src/insightGenerator.py],
    with the parts of [src/aadhaarDashboard.py] and [src/styling.py] that
    compile the metric mapping and draw the insight cards.

    Modelling conventions.
    - A pandas [DataFrame] is a row count together with an ordered list of
      named, typed columns: an [int64]-like column whose cells are integers
      or missing, or an [object] column whose cells are strings or missing.
    - Python / numpy floating point numbers are modelled by [pyfloat]: an
      exact rational, one of the two infinities, or NaN.  Finite arithmetic
      is exact (no rounding); division by zero, comparisons with NaN and the
      NaN-skipping reductions of pandas follow IEEE-754 and pandas.
    - Column names of a frame are distinct, as [pd.read_csv] makes them, and
      an integer column holds integers of any size.
    - A block [try: ... except Exception: return X] is modelled by a body
      returning an [outcome] and a wrapper that maps [Raises] to [X].
    - Python dictionaries of strings (insight records) are association
      lists in insertion order. *)

From Stdlib Require Import ZArith QArith Qround Qabs List String Ascii Bool Lia Lqa.
From Stdlib Require Floats.
From Stdlib Require Import Permutation Sorted DecimalString.
Import ListNotations.

Local Open Scope string_scope.

(** ** Strings *)

Module Str.

(** [str.lower()] on ASCII letters. *)
Definition lower_ascii (c : ascii) : ascii :=
  let n := nat_of_ascii c in
  if andb (Nat.leb 65 n) (Nat.leb n 90) then ascii_of_nat (n + 32) else c.

(** [str.upper()] on ASCII letters. *)
Definition upper_ascii (c : ascii) : ascii :=
  let n := nat_of_ascii c in
  if andb (Nat.leb 97 n) (Nat.leb n 122) then ascii_of_nat (n - 32) else c.

Fixpoint map (f : ascii -> ascii) (s : string) : string :=
  match s with
  | EmptyString => EmptyString
  | String c s' => String (f c) (map f s')
  end.

Definition lower : string -> string := map lower_ascii.
Definition upper : string -> string := map upper_ascii.

(** [needle in hay]. *)
Fixpoint contains (needle hay : string) : bool :=
  if prefix needle hay then true
  else match hay with
       | EmptyString => false
       | String _ hay' => contains needle hay'
       end.

Fixpoint concat_all (l : list string) : string :=
  match l with
  | [] => EmptyString
  | s :: l' => s ++ concat_all l'
  end.

End Str.

(** ** Floating point numbers, idealised *)

Module PyFloat.

Inductive pyfloat : Type :=
| Fin (q : Q)
| PInf
| NInf
| NaN.

Definition of_Z (z : Z) : pyfloat := Fin (inject_Z z).
Definition of_nat (n : nat) : pyfloat := of_Z (Z.of_nat n).

Definition Qltb (a b : Q) : bool := negb (Qle_bool b a).
Definition Qis0 (a : Q) : bool := Qeq_bool a 0.

(** Equality of floats as numbers: finite values are compared as rationals. *)
Definition feq (x y : pyfloat) : Prop :=
  match x, y with
  | Fin a, Fin b => a == b
  | PInf, PInf | NInf, NInf | NaN, NaN => True
  | _, _ => False
  end.

Definition is_nan (x : pyfloat) : bool :=
  match x with NaN => true | _ => false end.

Definition fneg (x : pyfloat) : pyfloat :=
  match x with
  | Fin a => Fin (- a)
  | PInf => NInf
  | NInf => PInf
  | NaN => NaN
  end.

Definition fadd (x y : pyfloat) : pyfloat :=
  match x, y with
  | NaN, _ | _, NaN => NaN
  | Fin a, Fin b => Fin (a + b)
  | PInf, NInf | NInf, PInf => NaN
  | PInf, _ | _, PInf => PInf
  | NInf, _ | _, NInf => NInf
  end.

Definition fsub (x y : pyfloat) : pyfloat := fadd x (fneg y).

(** The infinity with the sign of [s * a], NaN when [a] is zero. *)
Definition inf_signed (positive : bool) (a : Q) : pyfloat :=
  if Qis0 a then NaN
  else if Bool.eqb positive (Qltb 0 a) then PInf else NInf.

Definition fmul (x y : pyfloat) : pyfloat :=
  match x, y with
  | NaN, _ | _, NaN => NaN
  | Fin a, Fin b => Fin (a * b)
  | PInf, Fin a | Fin a, PInf => inf_signed true a
  | NInf, Fin a | Fin a, NInf => inf_signed false a
  | PInf, PInf | NInf, NInf => PInf
  | PInf, NInf | NInf, PInf => NInf
  end.

(** numpy true division: a zero divisor gives an infinity or NaN, it does
    not raise. *)
Definition fdiv (x y : pyfloat) : pyfloat :=
  match x, y with
  | NaN, _ | _, NaN => NaN
  | Fin a, Fin b =>
      if Qis0 b then inf_signed true a else Fin (a / b)
  | Fin _, PInf | Fin _, NInf => Fin 0
  | PInf, Fin b => if Qltb b 0 then NInf else PInf
  | NInf, Fin b => if Qltb b 0 then PInf else NInf
  | _, _ => NaN
  end.

(** [x < y]; false as soon as one side is NaN. *)
Definition fltb (x y : pyfloat) : bool :=
  match x, y with
  | NaN, _ | _, NaN => false
  | Fin a, Fin b => Qltb a b
  | NInf, NInf | PInf, _ => false
  | NInf, _ => true
  | Fin _, PInf => true
  | Fin _, NInf => false
  end.

Definition fgtb (x y : pyfloat) : bool := fltb y x.

(** [x >= y] and [x <= y]; false as soon as one side is NaN. *)
Definition fleb (x y : pyfloat) : bool :=
  match x, y with
  | NaN, _ | _, NaN => false
  | _, _ => negb (fltb y x)
  end.

Definition fgeb (x y : pyfloat) : bool := fleb y x.

(** Truthiness of a number: everything but zero, NaN included. *)
Definition truthy (x : pyfloat) : bool :=
  match x with
  | Fin a => negb (Qis0 a)
  | _ => true
  end.

Definition dropna (l : list pyfloat) : list pyfloat :=
  filter (fun x => negb (is_nan x)) l.

(** Plain left-to-right summation, as [np.sum] / [sum]. *)
Definition fsum (l : list pyfloat) : pyfloat :=
  fold_left fadd l (Fin 0).

(** [Series.sum()]: NaN entries are skipped. *)
Definition series_sum (l : list pyfloat) : pyfloat := fsum (dropna l).

(** [Series.mean()]: NaN entries are skipped; NaN when nothing is left. *)
Definition series_mean (l : list pyfloat) : pyfloat :=
  match dropna l with
  | [] => NaN
  | l' => fdiv (fsum l') (of_nat (List.length l'))
  end.

Definition fmax2 (x y : pyfloat) : pyfloat := if fltb x y then y else x.
Definition fmin2 (x y : pyfloat) : pyfloat := if fltb y x then y else x.

(** [Series.max()] / [Series.min()]: NaN entries are skipped. *)
Definition series_max (l : list pyfloat) : pyfloat :=
  match dropna l with
  | [] => NaN
  | x :: l' => fold_left fmax2 l' x
  end.

Definition series_min (l : list pyfloat) : pyfloat :=
  match dropna l with
  | [] => NaN
  | x :: l' => fold_left fmin2 l' x
  end.

(** [np.mean] of a non-empty Python list: NaN propagates. *)
Definition np_mean (l : list pyfloat) : pyfloat :=
  fdiv (fsum l) (of_nat (List.length l)).

End PyFloat.
Export PyFloat.

Declare Scope pyfloat_scope.
Delimit Scope pyfloat_scope with F.
Infix "+" := fadd : pyfloat_scope.
Infix "-" := fsub : pyfloat_scope.
Infix "*" := fmul : pyfloat_scope.
Infix "/" := fdiv : pyfloat_scope.
Infix "<?" := fltb : pyfloat_scope.
Infix ">?" := fgtb : pyfloat_scope.
Infix ">=?" := fgeb : pyfloat_scope.
Infix "=f=" := feq (at level 70, no associativity).

(** ** Data frames *)

Inductive column : Type :=
| IntCol (cells : list (option Z))        (* numeric column, [None] = NaN *)
| ObjCol (cells : list (option string)).  (* string column, [None] = NaN *)

Record DataFrame : Type := mkDF {
  nrows : nat;                          (* [len(df)], [df.shape[0]] *)
  cols : list (string * column)         (* [df.columns] with their data *)
}.

Definition columns (df : DataFrame) : list string := List.map fst (cols df).
Definition ncols (df : DataFrame) : nat := List.length (cols df).

Definition col_len (c : column) : nat :=
  match c with
  | IntCol l => List.length l
  | ObjCol l => List.length l
  end.

Definition some_count {A} (l : list (option A)) : nat :=
  List.length (filter (fun o => match o with Some _ => true | None => false end) l).

Definition none_count {A} (l : list (option A)) : nat :=
  List.length (filter (fun o => match o with Some _ => false | None => true end) l).

(** [Series.count()]: number of non-missing cells. *)
Definition col_count (c : column) : nat :=
  match c with
  | IntCol l => some_count l
  | ObjCol l => some_count l
  end.

Definition col_missing (c : column) : nat :=
  match c with
  | IntCol l => none_count l
  | ObjCol l => none_count l
  end.

(** Every column has one cell per row. *)
Definition well_formed (df : DataFrame) : bool :=
  forallb (fun nc => Nat.eqb (col_len (snd nc)) (nrows df)) (cols df).

Definition missing_cells (df : DataFrame) : nat :=
  list_sum (List.map (fun nc => col_missing (snd nc)) (cols df)).

(** [df[name]]: the first column of that name. *)
Fixpoint get_col (name : string) (cs : list (string * column)) : option column :=
  match cs with
  | [] => None
  | (n, c) :: cs' => if String.eqb n name then Some c else get_col name cs'
  end.

(** Result of a block that may raise. *)
Inductive outcome (A : Type) : Type :=
| Returns (a : A)
| Raises.
Arguments Returns {A} a.
Arguments Raises {A}.

Definition bind {A B} (o : outcome A) (k : A -> outcome B) : outcome B :=
  match o with
  | Returns a => k a
  | Raises => Raises
  end.

(** [try: body  except Exception: return handler]. *)
Definition try_except {A} (body : outcome A) (handler : A) : A :=
  match body with
  | Returns a => a
  | Raises => handler
  end.

Notation "x <- c1 ;; c2" := (bind c1 (fun x => c2))
  (at level 61, c1 at next level, right associativity).

(** ** Column resolver

    [for col in df.columns: if kw in col.lower(): return col]. *)

Definition find_column (matches : string -> bool) (df : DataFrame) : option string :=
  List.find matches (columns df).

Definition has_kw (kw col : string) : bool := Str.contains kw (Str.lower col).

(** ** DataQualityAnalysis *)

Module DataQualityAnalysis.

Record completeness : Type := {
  overall_completeness : pyfloat;
  column_completeness : list (string * pyfloat);
  null_percentage : pyfloat
}.

(** [self.df.count().sum()] *)
Definition non_null_cells (df : DataFrame) : nat :=
  list_sum (List.map (fun nc => col_count (snd nc)) (cols df)).

(** The returned mapping; [None] stands for the empty mapping [{}] of the
    exception handler. *)
Definition calculate_completeness (df : DataFrame) : option completeness :=
  let total_cells := (nrows df * ncols df)%nat in
  let non_null := non_null_cells df in
  let completeness :=
    if Nat.ltb 0 total_cells
    then (of_nat non_null / of_nat total_cells * Fin 100)%F
    else Fin 0 in
  let per_column :=
    List.map (fun nc => (fst nc,
                    (of_nat (col_count (snd nc)) / of_nat (nrows df) * Fin 100)%F))
        (cols df) in
  Some {| overall_completeness := completeness;
          column_completeness := per_column;
          null_percentage := (Fin 100 - completeness)%F |}.

(** [get_quality_status] *)
Definition get_quality_status (df : DataFrame) : string :=
  let completeness :=
    match calculate_completeness df with
    | Some m => overall_completeness m
    | None => Fin 0
    end in
  if (completeness >=? Fin 95)%F then "Excellent"
  else if (completeness >=? Fin 90)%F then "Good"
  else if (completeness >=? Fin 80)%F then "Moderate"
  else "Poor".

End DataQualityAnalysis.

(** ** Values that are only ever printed or used as labels *)

Inductive pyobj : Type :=
| ONone                 (* [None] *)
| ONaN                  (* a float NaN used as a label *)
| OInt (z : Z)
| OStr (s : string).

Definition Z_to_string (z : Z) : string :=
  NilZero.string_of_int (Z.to_int z).

(** [str(x)] *)
Definition str_of (x : pyobj) : string :=
  match x with
  | ONone => "None"
  | ONaN => "nan"
  | OInt z => Z_to_string z
  | OStr s => s
  end.

(** ** [groupby(key)[value].sum()]

    Groups come out sorted by key; rows whose key is missing are dropped;
    missing values do not contribute to the sum. *)

Section GroupBy.
Context {K : Type} (cmp : K -> K -> comparison).

Fixpoint add_to_group (k : K) (v : Z) (groups : list (K * Z)) : list (K * Z) :=
  match groups with
  | [] => [(k, v)]
  | (k', v') :: rest =>
      match cmp k k' with
      | Lt => (k, v) :: groups
      | Eq => (k', (v' + v)%Z) :: rest
      | Gt => (k', v') :: add_to_group k v rest
      end
  end.

Definition groupby_sum (rows : list (K * Z)) : list (K * Z) :=
  fold_left (fun groups kv => add_to_group (fst kv) (snd kv) groups) rows [].

(** Rows of a key column and a value column, side by side. *)
Fixpoint keyed_rows (ks : list (option K)) (vs : list (option Z)) : list (K * Z) :=
  match ks, vs with
  | Some k :: ks', Some v :: vs' => (k, v) :: keyed_rows ks' vs'
  | Some k :: ks', None :: vs' => (k, 0%Z) :: keyed_rows ks' vs'
  | None :: ks', _ :: vs' => keyed_rows ks' vs'
  | _, _ => []
  end.
End GroupBy.

Definition label_groups {K} (inj : K -> pyobj) (g : list (K * Z)) : list (pyobj * Z) :=
  List.map (fun kv => (inj (fst kv), snd kv)) g.

(** [df.groupby(key_col)[val_col].sum()] as a list of (label, sum) in index
    order.  Summing a string column does not give numbers: the arithmetic
    that follows raises. *)
Definition groupby_col_sum (key val : column) : outcome (list (pyobj * Z)) :=
  match val with
  | ObjCol _ => Raises
  | IntCol vs =>
      match key with
      | IntCol ks => Returns (label_groups OInt (groupby_sum Z.compare (keyed_rows ks vs)))
      | ObjCol ks => Returns (label_groups OStr (groupby_sum String.compare (keyed_rows ks vs)))
      end
  end.

Definition Zsum (l : list Z) : Z := fold_left Z.add l 0%Z.

(** ** Sorting of float arrays *)

Fixpoint insert_asc (x : pyfloat) (l : list pyfloat) : list pyfloat :=
  match l with
  | [] => [x]
  | y :: l' => if fltb y x then y :: insert_asc x l' else x :: l
  end.

Definition sort_asc (l : list pyfloat) : list pyfloat :=
  fold_right insert_asc [] l.

(** [np.sort]: ascending, NaN last. *)
Definition np_sort (l : list pyfloat) : list pyfloat :=
  sort_asc (dropna l) ++ filter is_nan l.

(** [Series.nlargest(n)]: the [n] largest non-missing values. *)
Definition nlargest (n : nat) (l : list pyfloat) : list pyfloat :=
  firstn n (rev (sort_asc (dropna l))).

(** [Series.idxmax()] / [Series.max()] together: label and value of the first
    maximum among the non-NaN entries.  On a series with no such entry
    [idxmax] gives NaN (pandas 2.x, warnings are silenced by the module). *)
Fixpoint first_max (best : pyobj * pyfloat) (l : list (pyobj * pyfloat)) : pyobj * pyfloat :=
  match l with
  | [] => best
  | (k, x) :: l' =>
      if is_nan x then first_max best l'
      else if is_nan (snd best) then first_max (k, x) l'
      else if fltb (snd best) x then first_max (k, x) l'
      else first_max best l'
  end.

Definition idxmax (l : list (pyobj * pyfloat)) : pyobj := fst (first_max (ONaN, NaN) l).

(** ** GeographicAnalysis *)

Module GeographicAnalysis.

Record concentration : Type := {
  herfindahl_index : pyfloat;
  gini_coefficient : pyfloat;
  top_state : pyobj;
  top_state_percentage : pyfloat;
  top_5_states_share : pyfloat;
  top_10_states_share : pyfloat;
  num_states : nat;
  concentration_level : string
}.

Definition _find_state_column : DataFrame -> option string :=
  find_column (has_kw "state").
Definition _find_district_column : DataFrame -> option string :=
  find_column (has_kw "district").
Definition _find_enrollment_column : DataFrame -> option string :=
  find_column (has_kw "total").

Definition shares_of (state_data : list (pyobj * Z)) : list (pyobj * pyfloat) :=
  let total := Zsum (List.map snd state_data) in
  List.map (fun kv => (fst kv, (of_Z (snd kv) / of_Z total * Fin 100)%F)) state_data.

Definition hhi_of (shares : list pyfloat) : pyfloat :=
  series_sum (List.map (fun s => (s * s)%F) shares).

Definition classify (hhi : pyfloat) : string :=
  if (hhi >? Fin 2500)%F then "High"
  else if (hhi >? Fin 2000)%F then "Moderate"
  else "Low".

(** [np.arange(1, n + 1) * sorted_shares] *)
Fixpoint rank_weighted (i : nat) (l : list pyfloat) : list pyfloat :=
  match l with
  | [] => []
  | x :: l' => (of_nat i * x)%F :: rank_weighted (S i) l'
  end.

(** The Gini line; [(n + 1) / n] divides Python integers and raises
    [ZeroDivisionError] when there is no state at all. *)
Definition gini_of (shares : list pyfloat) : outcome pyfloat :=
  let sorted_shares := np_sort shares in
  let n := List.length sorted_shares in
  let lhs := (Fin 2 * fsum (rank_weighted 1 sorted_shares)
              / (of_nat n * fsum sorted_shares))%F in
  match n with
  | O => Raises
  | _ => Returns (lhs - Fin (inject_Z (Z.of_nat (n + 1)) / inject_Z (Z.of_nat n)))%F
  end.

(** The body of the [try] block, on the two resolved columns. *)
Definition concentration_body (state enrol : column) : outcome concentration :=
  state_data <- groupby_col_sum state enrol ;;
  let shares := shares_of state_data in
  let values := List.map snd shares in
  let hhi := hhi_of values in
  gini <- gini_of values ;;
  Returns {| herfindahl_index := hhi;
             gini_coefficient := gini;
             top_state := idxmax shares;
             top_state_percentage := series_max values;
             top_5_states_share := series_sum (nlargest 5 values);
             top_10_states_share := series_sum (nlargest 10 values);
             num_states := List.length state_data;
             concentration_level := classify hhi |}.

(** [calculate_concentration]; [None] is the empty mapping [{}]. *)
Definition calculate_concentration (df : DataFrame) : option concentration :=
  match _find_state_column df, _find_enrollment_column df with
  | Some state_col, Some enrol_col =>
      match get_col state_col (cols df), get_col enrol_col (cols df) with
      | Some state, Some enrol =>
          try_except (c <- concentration_body state enrol ;; Returns (Some c)) None
      | _, _ => None
      end
  | _, _ => None
  end.

End GeographicAnalysis.

(** ** Number formatting of f-strings *)

Module Fmt.

(** Nearest integer of a non-negative rational, ties to even. *)
Definition round_half_even (q : Q) : Z :=
  let f := Qfloor q in
  let r := (q - inject_Z f)%Q in
  if Qltb r (1 # 2) then f
  else if Qltb (1 # 2) r then (f + 1)%Z
  else if Z.even f then f else (f + 1)%Z.

Definition zero_pad (width : nat) (s : string) : string :=
  Str.concat_all (repeat "0" (width - String.length s)) ++ s.

(** [f'{x:.<d>f}'] *)
Definition fixed (d : nat) (x : pyfloat) : string :=
  match x with
  | NaN => "nan"
  | PInf => "inf"
  | NInf => "-inf"
  | Fin q =>
      let scale := (10 ^ Z.of_nat d)%Z in
      let n := round_half_even (Qabs q * inject_Z scale) in
      let sign := if Qltb q 0 then "-" else EmptyString in
      let whole := Z_to_string (n / scale) in
      match d with
      | O => sign ++ whole
      | _ => sign ++ whole ++ "." ++ zero_pad d (Z_to_string (n mod scale))
      end
  end.

(** Thousands separators, on the digits from the right. *)
Fixpoint group3 (rev_digits : list ascii) (i : nat) : list ascii :=
  match rev_digits with
  | [] => []
  | c :: rest =>
      match i, rest with
      | 2%nat, _ :: _ => c :: ","%char :: group3 rest 0
      | _, _ => c :: group3 rest (S i)
      end
  end.

(** [f'{n:,}'] on an integer. *)
Definition commas (z : Z) : string :=
  let digits := list_ascii_of_string (Z_to_string (Z.abs z)) in
  let body := string_of_list_ascii (rev (group3 (rev digits) 0)) in
  if Z.ltb z 0 then "-" ++ body else body.

End Fmt.

(** ** DemographicAnalysis *)

Module DemographicAnalysis.

Record age_distribution : Type := {
  age_diversity_index : pyfloat;
  dominant_age : string;
  dominant_age_percentage : pyfloat;
  age_groups : list (string * pyfloat);
  age_totals : list (string * Z)
}.

(** [_find_age_columns]: every column whose lowered name contains "age". *)
Definition _find_age_columns (df : DataFrame) : list string :=
  filter (has_kw "age") (columns df).

Definition _find_gender_column : DataFrame -> option string :=
  find_column (has_kw "gender").

Fixpoint has_dup (l : list string) : bool :=
  match l with
  | [] => false
  | x :: l' => existsb (String.eqb x) l' || has_dup l'
  end.

Definition Zcells_sum (cells : list (option Z)) : Z :=
  Zsum (List.map (fun o => match o with Some v => v | None => 0%Z end) cells).

(** [int(self.df[col].sum())].  A string column does not sum to a number,
    and a repeated column name selects a frame, not a series: both make
    [int(...)] raise. *)
Definition column_total (df : DataFrame) (col : string) : outcome Z :=
  match get_col col (cols df) with
  | Some (IntCol cells) => Returns (Zcells_sum cells)
  | _ => Raises
  end.

Fixpoint column_totals (df : DataFrame) (age_cols : list string)
  : outcome (list (string * Z)) :=
  match age_cols with
  | [] => Returns []
  | col :: rest =>
      t <- column_total df col ;;
      ts <- column_totals df rest ;;
      Returns ((col, t) :: ts)
  end.

Definition Qint (z : Z) : Q := inject_Z z.

(** [(v / total * 100) if total > 0 else 0] *)
Definition percentage (total v : Z) : pyfloat :=
  if Z.ltb 0 total then Fin (Qint v / Qint total * 100) else Fin 0.

(** [sum([(v / total) ** 2 for v in age_totals.values()])] *)
Definition sum_sq_shares (total : Z) (vs : list Z) : Q :=
  fold_left Qplus (List.map (fun v => (Qint v / Qint total) ^ 2) vs) 0.

(** [1 - sum(...) if total > 0 else 0] *)
Definition diversity_of (total : Z) (vs : list Z) : pyfloat :=
  if Z.ltb 0 total then Fin (1 - sum_sq_shares total vs) else Fin 0.

(** [max(items, key=lambda x: x[1])]: the first item of largest value. *)
Fixpoint max_item (best : string * pyfloat) (l : list (string * pyfloat))
  : string * pyfloat :=
  match l with
  | [] => best
  | kv :: l' => if fltb (snd best) (snd kv) then max_item kv l' else max_item best l'
  end.

(** The body of the [try] block.  The entropy entry, a logarithm, has no
    rational value and is left out of the record; computing it cannot raise. *)
Definition age_body (df : DataFrame) (age_cols : list string)
  : outcome age_distribution :=
  if has_dup age_cols then Raises else
  totals <- column_totals df age_cols ;;
  let vs := List.map snd totals in
  let total := Zsum vs in
  let age_percentages :=
    List.map (fun kv => (fst kv, percentage total (snd kv))) totals in
  let diversity := diversity_of total vs in
  match age_percentages with
  | [] => Raises
  | first :: rest =>
      let dominant := max_item first rest in
      Returns {| age_diversity_index := diversity;
                 dominant_age := fst dominant;
                 dominant_age_percentage := snd dominant;
                 age_groups := age_percentages;
                 age_totals := totals |}
  end.

(** [analyze_age_distribution]; [None] is the empty mapping [{}]. *)
Definition analyze_age_distribution (df : DataFrame) : option age_distribution :=
  match _find_age_columns df with
  | [] => None
  | age_cols => try_except (d <- age_body df age_cols ;; Returns (Some d)) None
  end.

End DemographicAnalysis.

(** ** AdvancedTemporalAnalysis *)

Module AdvancedTemporalAnalysis.

Record weekly_statistics : Type := {
  avg_weekly : option Z;
  weekly_variance : option pyfloat
}.

(** The temporal mapping, key by key; [None] is an absent key. *)
Record temporal_metrics : Type := {
  avg_growth_rate : option pyfloat;
  peak_growth_rate : option pyfloat;
  lowest_growth_rate : option pyfloat;
  trend_direction : option string;
  peak_day : option pyobj;
  peak_count : option Z;
  total_records : option Z;
  weekly_stats : option weekly_statistics;
  has_error : bool           (* the key 'error' is present *)
}.

(** [{}] *)
Definition empty : temporal_metrics :=
  {| avg_growth_rate := None; peak_growth_rate := None;
     lowest_growth_rate := None; trend_direction := None;
     peak_day := None; peak_count := None; total_records := None;
     weekly_stats := None; has_error := false |}.

(** [{'avg_growth_rate': 0, 'trend_direction': 'stable', 'peak_day': None}] *)
Definition too_short : temporal_metrics :=
  {| avg_growth_rate := Some (Fin 0); peak_growth_rate := None;
     lowest_growth_rate := None; trend_direction := Some "stable";
     peak_day := Some ONone; peak_count := None; total_records := None;
     weekly_stats := None; has_error := false |}.

(** [{'error': str(e)}] *)
Definition error_only : temporal_metrics :=
  {| avg_growth_rate := None; peak_growth_rate := None;
     lowest_growth_rate := None; trend_direction := None;
     peak_day := None; peak_count := None; total_records := None;
     weekly_stats := None; has_error := true |}.

Definition _find_date_column : DataFrame -> option string :=
  find_column (has_kw "date").

Definition _find_enrollment_column : DataFrame -> option string :=
  find_column (fun col => has_kw "total" col || has_kw "enrol" col).

(** [Series.pct_change()]: NaN first, then [x / previous - 1]. *)
Fixpoint pct_change_from (prev : Z) (l : list Z) : list pyfloat :=
  match l with
  | [] => []
  | x :: l' => (of_Z x / of_Z prev - Fin 1)%F :: pct_change_from x l'
  end.

Definition pct_change (l : list Z) : list pyfloat :=
  match l with
  | [] => []
  | x :: l' => NaN :: pct_change_from x l'
  end.

(** [Series.tail(n)] *)
Definition tail {A} (n : nat) (l : list A) : list A :=
  skipn (List.length l - n) l.

(** The trend of the trailing mean growth. *)
Definition classify_trend (recent_growth : pyfloat) : string :=
  if (recent_growth >? Fin 5)%F then "upward"
  else if (recent_growth <? Fin (-5))%F then "downward"
  else "stable".

(** Row of the first largest total: [idxmax] on an integer column. *)
Fixpoint peak_row (best : pyobj * Z) (l : list (pyobj * Z)) : pyobj * Z :=
  match l with
  | [] => best
  | kv :: l' => if Z.ltb (snd best) (snd kv) then peak_row kv l' else peak_row best l'
  end.

(** [daily_data['growth']] of a grouped, date-sorted frame. *)
Definition growth_of (daily_data : list (pyobj * Z)) : list pyfloat :=
  List.map (fun g => (g * Fin 100)%F) (pct_change (List.map snd daily_data)).

Definition recent_growth_of (daily_data : list (pyobj * Z)) : pyfloat :=
  series_mean (tail 10 (growth_of daily_data)).

(** The body of the [try] block.  [reset_index] raises when the grouping
    column and the summed column are the same one.  On a string column the
    sums are strings: they are not looked at before the length test, and
    [pct_change] raises on them. *)
Definition growth_body (date_col enrol_col : string) (df : DataFrame)
  : outcome temporal_metrics :=
  match get_col date_col (cols df), get_col enrol_col (cols df) with
  | Some dates, Some (IntCol _ as enrol) =>
      daily_data <- groupby_col_sum dates enrol ;;
      if String.eqb date_col enrol_col then Raises else
      match daily_data with
      | [] | [_] => Returns too_short
      | first :: rest =>
          let growth := growth_of daily_data in
          let peak := peak_row first rest in
          Returns {| avg_growth_rate := Some (series_mean growth);
                     peak_growth_rate := Some (series_max growth);
                     lowest_growth_rate := Some (series_min growth);
                     trend_direction :=
                       Some (classify_trend (recent_growth_of daily_data));
                     peak_day := Some (fst peak);
                     peak_count := Some (snd peak);
                     total_records := Some (Zsum (List.map snd daily_data));
                     weekly_stats := None;
                     has_error := false |}
      end
  | Some dates, Some (ObjCol cells) =>
      groups <- groupby_col_sum dates (IntCol (List.map (fun _ => None) cells)) ;;
      if String.eqb date_col enrol_col then Raises else
      match groups with
      | [] | [_] => Returns too_short
      | _ => Raises
      end
  | _, _ => Raises
  end.

(** [calculate_growth_rate] *)
Definition calculate_growth_rate (df : DataFrame) : temporal_metrics :=
  match _find_date_column df, _find_enrollment_column df with
  | Some date_col, Some enrol_col =>
      try_except (growth_body date_col enrol_col df) error_only
  | _, _ => empty
  end.

End AdvancedTemporalAnalysis.

(** ** The metric mapping read by the insight generator

    One record per metric family; a field is [None] when the key is absent
    from the mapping, and a family is [None] when the family is absent. *)

Module Metrics.

Record geographic : Type := {
  herfindahl_index : option pyfloat;
  top_state_percentage : option pyfloat;
  top_state : option pyobj;
  num_states : option Z
}.

Record demographic : Type := {
  age_diversity_index : option pyfloat;
  dominant_age_percentage : option pyfloat;
  dominant_age : option pyobj;
  gender_distribution : option (list (string * Z))
}.

Record issues : Type := {
  total_issues : option Z;
  duplicate_records : option Z
}.

Record quality : Type := {
  overall_completeness : option pyfloat;
  quality_issues : option issues;      (* key 'issues' *)
  total_records : option Z
}.

(** A value of the biometric mapping: a nested mapping with an optional
    'percentage', or anything else. *)
Inductive bio_value : Type :=
| BioDict (percentage : option pyfloat)
| BioOther.

Record update : Type := {
  biometric_to_enrol_ratio : option pyfloat;
  demographic_to_enrol_ratio : option pyfloat
}.

Record trend : Type := {
  volatility_level : option string
}.

Record results : Type := {
  temporal_metrics : option AdvancedTemporalAnalysis.temporal_metrics;
  geographic_metrics : option geographic;
  demographic_metrics : option demographic;
  quality_metrics : option quality;
  biometric_metrics : option (list (string * bio_value));
  update_metrics : option update;
  trend_metrics : option trend
}.

(** The completely empty mapping. *)
Definition no_results : results :=
  {| temporal_metrics := None; geographic_metrics := None;
     demographic_metrics := None; quality_metrics := None;
     biometric_metrics := None; update_metrics := None;
     trend_metrics := None |}.

(** The entries of a [calculate_concentration] result that the insight
    generator reads. *)
Definition of_concentration (c : option GeographicAnalysis.concentration)
  : geographic :=
  match c with
  | None => {| herfindahl_index := None; top_state_percentage := None;
               top_state := None; num_states := None |}
  | Some c =>
      {| herfindahl_index := Some (GeographicAnalysis.herfindahl_index c);
         top_state_percentage := Some (GeographicAnalysis.top_state_percentage c);
         top_state := Some (GeographicAnalysis.top_state c);
         num_states := Some (Z.of_nat (GeographicAnalysis.num_states c)) |}
  end.

End Metrics.

(** ** InsightGenerator *)

Module InsightGenerator.
Import Metrics.

(** An insight record: a dictionary of strings, in insertion order.  The
    empty list is the empty dictionary [{}]. *)
Definition insight : Type := list (string * string).

(** [d.get(key)] *)
Fixpoint get (d : insight) (key : string) : option string :=
  match d with
  | [] => None
  | (k, v) :: d' => if String.eqb k key then Some v else get d' key
  end.

(** [d.get(key, default)] on an optional entry. *)
Definition or_default {A} (o : option A) (default : A) : A :=
  match o with
  | Some a => a
  | None => default
  end.

Definition make (title message details action severity kind : string) : insight :=
  [("title", title); ("message", message); ("details", details);
   ("action", action); ("severity", severity); ("type", kind)].

Section Generators.
Variable self_results : results.

Definition temporal : AdvancedTemporalAnalysis.temporal_metrics :=
  or_default (temporal_metrics self_results) AdvancedTemporalAnalysis.empty.

Definition geo : geographic :=
  or_default (geographic_metrics self_results)
    {| herfindahl_index := None; top_state_percentage := None;
       top_state := None; num_states := None |}.

Definition demo : demographic :=
  or_default (demographic_metrics self_results)
    {| age_diversity_index := None; dominant_age_percentage := None;
       dominant_age := None; gender_distribution := None |}.

Definition quality_ : quality :=
  or_default (quality_metrics self_results)
    {| overall_completeness := None; quality_issues := None;
       total_records := None |}.

Definition issues_ : issues :=
  or_default (quality_issues quality_)
    {| total_issues := None; duplicate_records := None |}.

Definition generate_temporal_insight : insight :=
  let growth := or_default (AdvancedTemporalAnalysis.avg_growth_rate temporal) (Fin 0) in
  let trend := or_default (AdvancedTemporalAnalysis.trend_direction temporal) "stable" in
  let peak_count := or_default (AdvancedTemporalAnalysis.peak_count temporal) 0%Z in
  if (growth >? Fin 20)%F then
    make "EXCEPTIONAL GROWTH - Accelerating Fast"
      ("The enrollment is growing at " ++ Fmt.fixed 1 growth
       ++ "% daily - this is outstanding! "
       ++ "It is experiencing rapid expansion with peak day reaching "
       ++ Fmt.commas peak_count ++ " enrollments. "
       ++ "Trend: " ++ Str.upper trend)
      ("Growth above 20% daily indicates explosive expansion. This is exceptional and requires "
       ++ "infrastructure scaling to handle the volume.")
      "Scale infrastructure immediately to handle increased volume"
      "positive" "temporal"
  else if (growth >? Fin 10)%F then
    make "STRONG GROWTH - On Track"
      ("Daily growth rate is " ++ Fmt.fixed 1 growth ++ "% - excellent performance! "
       ++ "This system is expanding well with consistent positive momentum. "
       ++ "Trend: " ++ Str.upper trend)
      "Growth between 10-20% is strong and sustainable. The enrollment system is performing well."
      "Maintain momentum and continue monitoring capacity"
      "positive" "temporal"
  else if (growth >? Fin 5)%F then
    make "STEADY GROWTH - Healthy Progress"
      ("Enrollment is growing steadily at " ++ Fmt.fixed 1 growth ++ "% daily. "
       ++ "This is on track with consistent, healthy expansion. "
       ++ "Trend: " ++ Str.upper trend)
      "5-10% daily growth is healthy and sustainable long-term."
      "Continue current strategy while planning for scaling"
      "info" "temporal"
  else
    make "SLOW GROWTH - Needs Attention"
      ("Growth rate is " ++ Fmt.fixed 1 growth ++ "% daily - below target. "
       ++ "Trend: " ++ Str.upper trend ++ ". The enrollment needs a boost.")
      "Below 5% daily growth suggests the need for campaign improvements."
      "Review marketing campaigns and identify growth barriers"
      "warning" "temporal".

Definition generate_peak_activity_insight : insight :=
  let peak_count := or_default (AdvancedTemporalAnalysis.peak_count temporal) 0%Z in
  let peak_day := or_default (AdvancedTemporalAnalysis.peak_day temporal) (OStr "N/A") in
  make "PEAK ACTIVITY - The Busiest Day"
    ("The peak enrollment day recorded " ++ Fmt.commas peak_count
     ++ " registrations on " ++ str_of peak_day ++ ". "
     ++ "This shows the system's maximum capacity and user interest level.")
    "Understanding peak capacity helps with infrastructure planning and resource allocation."
    "Use peak day data to plan infrastructure and staffing"
    "info" "temporal".

Definition generate_weekly_consistency_insight : insight :=
  let weekly_stats :=
    or_default (AdvancedTemporalAnalysis.weekly_stats temporal)
      {| AdvancedTemporalAnalysis.avg_weekly := None;
         AdvancedTemporalAnalysis.weekly_variance := None |} in
  let avg_weekly := or_default (AdvancedTemporalAnalysis.avg_weekly weekly_stats) 0%Z in
  let variance := or_default (AdvancedTemporalAnalysis.weekly_variance weekly_stats) (Fin 0) in
  let cv :=
    if truthy variance && negb (Z.eqb avg_weekly 0)
    then (variance / of_Z avg_weekly * Fin 100)%F
    else Fin 0 in
  let '(status, severity) :=
    if (cv <? Fin 15)%F then
      ("Highly Consistent - Predictable patterns", "positive")
    else if (cv <? Fin 30)%F then
      ("Moderately Consistent - Some variation", "info")
    else
      ("Highly Variable - Unpredictable patterns", "warning") in
  make "WEEKLY PATTERNS - Predictability Check"
    ("Average weekly enrollment: " ++ Fmt.commas avg_weekly ++ " registrations. "
     ++ "Status: " ++ status ++ ". This tells how predictable the enrollment patterns are.")
    "Low variation means you can forecast demand accurately. High variation requires flexible resources."
    "Plan staffing and resources based on consistency level"
    severity "temporal".

Definition generate_geographic_insight : insight :=
  let hhi := or_default (herfindahl_index geo) (Fin 0) in
  let top_state_pct := or_default (top_state_percentage geo) (Fin 0) in
  let top_state := or_default (top_state geo) (OStr "N/A") in
  if (hhi >? Fin 2500)%F then
    make "HIGH CONCENTRATION - Unbalanced Distribution"
      (str_of top_state ++ " dominates with " ++ Fmt.fixed 1 top_state_pct
       ++ "% of all enrollments. "
       ++ "The enrollment is heavily concentrated in one region. This means most of the "
       ++ "users are from a specific area.")
      ("High concentration (HHI > 2500) indicates unbalanced geographic distribution. "
       ++ "This creates risk if that region experiences disruption.")
      "Launch targeted campaigns in underserved regions"
      "warning" "geographic"
  else if (hhi >? Fin 2000)%F then
    make "MODERATE CONCENTRATION - Room for Growth"
      (str_of top_state ++ " leads with " ++ Fmt.fixed 1 top_state_pct
       ++ "% of enrollments. "
       ++ "The distribution is somewhat unbalanced but manageable. "
       ++ "There's good opportunity for geographic expansion.")
      "Moderate concentration suggests some regional imbalance but with diversification potential."
      "Focus on expanding in tier-2 and tier-3 cities"
      "info" "geographic"
  else
    make "BALANCED DISTRIBUTION - Well Spread"
      ("Enrollments are well-distributed across regions. "
       ++ "Top state (" ++ str_of top_state ++ ") has only "
       ++ Fmt.fixed 1 top_state_pct ++ "%. "
       ++ "This excellent geographic diversity reduces regional risk.")
      "Low concentration (HHI < 2000) indicates healthy geographic distribution."
      "Continue expanding in new regions"
      "positive" "geographic".

Definition generate_state_coverage_insight : insight :=
  let num_states := or_default (num_states geo) 0%Z in
  let coverage_pct := Fin (inject_Z num_states / 36 * 100) in
  let '(status, severity) :=
    if Z.geb num_states 30 then
      ("Excellent - Nearly complete coverage", "positive")
    else if Z.geb num_states 20 then
      ("Good - Significant coverage", "info")
    else
      ("Limited - Room for expansion", "warning") in
  make "GEOGRAPHIC COVERAGE - State Distribution"
    ("The service covers " ++ Z_to_string num_states ++ " states/UTs ("
     ++ Fmt.fixed 0 coverage_pct ++ "% of India). "
     ++ "Status: " ++ status ++ ". This shows the national reach.")
    "Higher coverage means better national presence and reduced geographic risk."
    (if Z.ltb num_states 36
     then "Plan expansion to reach remaining " ++ Z_to_string (36 - num_states) ++ " regions"
     else "Maintain national coverage")
    severity "geographic".

Definition generate_demographic_insight : insight :=
  let diversity := or_default (age_diversity_index demo) (Fin 0) in
  let dominant_pct := or_default (dominant_age_percentage demo) (Fin 0) in
  let dominant_age := or_default (dominant_age demo) (OStr "N/A") in
  if (diversity >? Fin (8 # 10))%F then
    make "EXCELLENT DIVERSITY - All Groups Well Represented"
      ("The enrollment is highly diverse across all age groups. "
       ++ "No single age group dominates (largest is " ++ Fmt.fixed 1 dominant_pct ++ "%). "
       ++ "This indicates inclusive outreach and balanced participation.")
      "High diversity (>0.8) means the service appeals to all demographics."
      "Maintain inclusive engagement strategies"
      "positive" "demographic"
  else if (diversity >? Fin (6 # 10))%F then
    make "GOOD DIVERSITY - Balanced Participation"
      ("Most age groups are well-represented, though " ++ str_of dominant_age ++ " leads "
       ++ "with " ++ Fmt.fixed 1 dominant_pct ++ "%. The enrollment is reasonably balanced.")
      "Moderate diversity (0.6-0.8) shows balanced but not perfect representation."
      "Monitor underrepresented groups for equity"
      "info" "demographic"
  else if (diversity >? Fin (4 # 10))%F then
    make "MODERATE SKEW - Some Groups Underrepresented"
      (str_of dominant_age ++ " accounts for " ++ Fmt.fixed 1 dominant_pct ++ "% of enrollments. "
       ++ "Other age groups are underrepresented. This needs attention.")
      "Lower diversity suggests some demographic groups are not being reached."
      "Launch targeted outreach for underrepresented age groups"
      "warning" "demographic"
  else
    make "CRITICAL SKEW - Severe Demographic Imbalance"
      (str_of dominant_age ++ " dominates with " ++ Fmt.fixed 1 dominant_pct ++ "% of enrollments. "
       ++ "Other demographic groups are significantly underrepresented. "
       ++ "This is a critical gap that needs immediate action.")
      "Very low diversity indicates major demographic gaps in the service."
      "Launch immediate diversity and inclusion campaigns"
      "critical" "demographic".

(** [sorted(items, key=lambda x: x[1], reverse=True)]: stable, so equal
    counts keep their original order. *)
Fixpoint insert_desc (x : string * Z) (l : list (string * Z)) : list (string * Z) :=
  match l with
  | [] => [x]
  | y :: l' => if Z.ltb (snd x) (snd y) then y :: insert_desc x l' else x :: l
  end.

Definition sorted_desc (items : list (string * Z)) : list (string * Z) :=
  fold_right insert_desc [] items.

Definition generate_gender_insight : insight :=
  let gender_dist := or_default (gender_distribution demo) [] in
  match gender_dist with
  | [] => []
  | first :: _ =>
      let sorted_gender := sorted_desc gender_dist in
      let max_gender := hd first sorted_gender in
      let min_gender := last sorted_gender first in
      let ratio :=
        if Z.ltb 0 (snd min_gender)
        then Fin (inject_Z (snd max_gender) / inject_Z (snd min_gender))
        else Fin 0 in
      let '(status, severity) :=
        if (ratio <? Fin (12 # 10))%F then
          ("Excellent - Nearly equal participation", "positive")
        else if (ratio <? Fin (15 # 10))%F then
          ("Good - Fairly balanced", "info")
        else
          ("Imbalanced - One gender dominates", "warning") in
      make "GENDER BALANCE - Equality Check"
        ("Gender distribution ratio is " ++ Fmt.fixed 2 ratio ++ ":1 ("
         ++ fst max_gender ++ " to " ++ fst min_gender ++ "). "
         ++ "Status: " ++ status ++ ". Aim for equal participation from all genders.")
        "Balanced gender representation ensures inclusive service delivery."
        "If imbalanced, increase outreach to underrepresented gender"
        severity "demographic"
  end.

Definition generate_quality_insight : insight :=
  let completeness := or_default (overall_completeness quality_) (Fin 0) in
  let total_issues := or_default (total_issues issues_) 0%Z in
  if (completeness >? Fin 97)%F then
    make "EXCELLENT DATA QUALITY - Premium Standard"
      ("Data completeness is " ++ Fmt.fixed 1 completeness
       ++ "%. The data is pristine with minimal issues. "
       ++ "This ensures reliable analysis and decision-making.")
      "Excellent data quality (>97%) means high confidence in analytics."
      "Maintain current data collection standards"
      "positive" "quality"
  else if (completeness >? Fin 93)%F then
    make "GOOD DATA QUALITY - Reliable"
      ("Data completeness is " ++ Fmt.fixed 1 completeness
       ++ "%. Quality is good with minimal issues. "
       ++ "The data is reliable for analysis.")
      "Good data quality (93-97%) is acceptable for most purposes."
      "Monitor and continue gradual improvements"
      "info" "quality"
  else if (completeness >? Fin 85)%F then
    make "MODERATE QUALITY - Needs Attention"
      ("Data completeness is " ++ Fmt.fixed 1 completeness ++ "% with "
       ++ Fmt.commas total_issues ++ " identified issues. "
       ++ "Quality needs improvement for reliable analysis.")
      "Below 93% completeness means important data gaps exist."
      "Identify and fix data collection gaps systematically"
      "warning" "quality"
  else
    make "POOR DATA QUALITY - Critical"
      ("Data completeness is only " ++ Fmt.fixed 1 completeness ++ "% with "
       ++ Fmt.commas total_issues ++ " critical issues. "
       ++ "Data quality is severely compromised.")
      "Below 85% completeness severely impacts reliability."
      "Urgently review and fix data collection procedures"
      "critical" "quality".

Definition generate_duplicates_insight : insight :=
  let duplicates := or_default (duplicate_records issues_) 0%Z in
  let total_records := or_default (total_records quality_) 1%Z in
  let dup_pct :=
    if Z.ltb 0 total_records
    then Fin (inject_Z duplicates / inject_Z total_records * 100)
    else Fin 0 in
  let '(status, severity) :=
    if Z.eqb duplicates 0 then
      ("Perfect - No duplicates", "positive")
    else if (dup_pct <? Fin (5 # 10))%F then
      ("Acceptable - Minimal duplicates", "info")
    else
      ("Concerning - Significant duplication", "warning") in
  make "DUPLICATE RECORDS - Data Integrity Check"
    ("Found " ++ Fmt.commas duplicates ++ " duplicate records ("
     ++ Fmt.fixed 2 dup_pct ++ "%). "
     ++ "Status: " ++ status ++ ". This affects data accuracy.")
    "Duplicates can skew analysis results and inflate enrollment numbers."
    "Implement duplicate detection and removal procedures"
    severity "quality".

(** [[val.get('percentage', 0) for val in bio.values() if isinstance(val, dict)]] *)
Fixpoint bio_percentages (bio : list (string * bio_value)) : list pyfloat :=
  match bio with
  | [] => []
  | (_, BioDict p) :: bio' => or_default p (Fin 0) :: bio_percentages bio'
  | (_, BioOther) :: bio' => bio_percentages bio'
  end.

Definition generate_biometric_insight : insight :=
  match or_default (biometric_metrics self_results) [] with
  | [] => []
  | bio =>
      let bio_ages := bio_percentages bio in
      let avg_coverage :=
        match bio_ages with
        | [] => Fin 0
        | _ => np_mean bio_ages
        end in
      let '(status, severity) :=
        if (avg_coverage >? Fin 90)%F then
          ("Excellent - High biometric collection", "positive")
        else if (avg_coverage >? Fin 70)%F then
          ("Good - Solid coverage", "info")
        else
          ("Low - Needs improvement", "warning") in
      make "BIOMETRIC COVERAGE - Fingerprint Enrollment"
        ("Biometric enrollment coverage is " ++ Fmt.fixed 1 avg_coverage ++ "%. "
         ++ "Status: " ++ status ++ ". This shows fingerprint data collection rates.")
        "Higher biometric coverage ensures better identity verification capability."
        "Increase biometric collection during enrollment"
        severity "biometric"
  end.

Definition generate_update_insight : insight :=
  let updates :=
    or_default (update_metrics self_results)
      {| biometric_to_enrol_ratio := None; demographic_to_enrol_ratio := None |} in
  let bio_ratio := or_default (biometric_to_enrol_ratio updates) (Fin 0) in
  let demo_ratio := or_default (demographic_to_enrol_ratio updates) (Fin 0) in
  let total_update_ratio := (bio_ratio + demo_ratio)%F in
  let '(status, severity) :=
    if (total_update_ratio >? Fin (5 # 10))%F then
      ("High - Frequent updates", "positive")
    else if (total_update_ratio >? Fin (2 # 10))%F then
      ("Moderate - Regular updates", "info")
    else
      ("Low - Limited updates", "warning") in
  make "UPDATE FREQUENCY - System Activity"
    ("Update-to-enrollment ratio is " ++ Fmt.fixed 2 total_update_ratio ++ ". "
     ++ "Status: " ++ status ++ ". This shows how active users are updating their data.")
    "Higher update ratios indicate engaged users maintaining accurate information."
    "Encourage regular data updates and maintenance"
    severity "update".

Definition generate_volatility_insight : insight :=
  let trends := or_default (trend_metrics self_results) {| volatility_level := None |} in
  let volatility_level := or_default (volatility_level trends) "Medium" in
  let '(msg, severity) :=
    if String.eqb volatility_level "High" then
      ("Highly Variable - Unpredictable daily changes", "warning")
    else if String.eqb volatility_level "Medium" then
      ("Moderate Variability - Some daily fluctuation", "info")
    else if String.eqb volatility_level "Low" then
      ("Stable - Consistent daily patterns", "positive")
    else ("Unknown", "info") in
  make "ENROLLMENT VOLATILITY - Stability Check"
    ("Volatility Level: " ++ msg ++ ". This affects resource planning and forecasting.")
    (volatility_level ++ " volatility means daily enrollments "
     ++ (if String.eqb volatility_level "High" then "vary significantly"
         else if String.eqb volatility_level "Medium" then "fluctuate moderately"
         else "remain stable") ++ ".")
    (if String.eqb volatility_level "High" then "Use flexible resource planning"
     else if String.eqb volatility_level "Medium" then "Maintain current planning"
     else "Optimize fixed resource allocation")
    severity "trend".

Definition generate_capacity_insight : insight :=
  let peak_count := or_default (AdvancedTemporalAnalysis.peak_count temporal) 0%Z in
  let total := or_default (AdvancedTemporalAnalysis.total_records temporal) 0%Z in
  let avg_daily :=
    if Z.ltb 0 total then (inject_Z total / 365)%Q else inject_Z total in
  let utilization :=
    if Z.ltb 0 peak_count
    then Fin (avg_daily / inject_Z peak_count * 100)
    else Fin 0 in
  let '(status, severity) :=
    if (utilization >? Fin 80)%F then
      ("High Load - Operating near capacity", "warning")
    else if (utilization >? Fin 50)%F then
      ("Moderate Load - Good headroom", "info")
    else
      ("Low Load - Plenty of capacity", "positive") in
  make "SYSTEM CAPACITY - Load Analysis"
    ("Average-to-peak utilization is " ++ Fmt.fixed 1 utilization
     ++ "%. Status: " ++ status ++ ". "
     ++ "This shows how efficiently the system capacity is being used.")
    "Capacity planning ensures it can handle peak loads without degradation."
    (if (utilization >? Fin 80)%F then "Upgrade infrastructure urgently"
     else if (utilization >? Fin 50)%F then "Monitor capacity trends"
     else "Maintain current capacity")
    severity "capacity".

(** The thirteen insights in the order they are appended. *)
Definition appended : list insight :=
  [ generate_quality_insight; generate_temporal_insight;
    generate_geographic_insight; generate_demographic_insight;
    generate_peak_activity_insight; generate_weekly_consistency_insight;
    generate_state_coverage_insight; generate_gender_insight;
    generate_duplicates_insight; generate_biometric_insight;
    generate_update_insight; generate_volatility_insight;
    generate_capacity_insight ].

End Generators.

(** Truthiness of a dictionary: non-empty. *)
Definition truthy_dict (i : insight) : bool :=
  match i with
  | [] => false
  | _ => true
  end.

(** The object state: [self.results], [self.insights], [self.recommendations]. *)
Record generator : Type := {
  results_ : results;
  insights : list insight;
  recommendations : list string
}.

Definition default_recommendations : list string :=
  [ "Monitor all key metrics regularly";
    "Maintain current data collection standards";
    "Review system performance weekly";
    "Plan quarterly improvement initiatives" ].

Definition severity_in (i : insight) (allowed : list string) : bool :=
  match get i "severity" with
  | Some s => existsb (String.eqb s) allowed
  | None => false
  end.

(** The recommendation list computed from [self.insights]. *)
Definition recommendations_of (ins : list insight) : list string :=
  let corrective :=
    List.map (fun i => or_default (get i "action") "Review insight")
      (filter (fun i => severity_in i ["critical"; "warning"]) ins) in
  let reinforcing :=
    List.map (fun i => or_default (get i "action") "Continue current approach")
      (filter (fun i => severity_in i ["positive"]) ins) in
  let recs := (corrective ++ reinforcing)%list in
  let recs := match recs with [] => default_recommendations | _ => recs end in
  firstn 10 recs.

Definition generate_recommendations (self : generator) : generator :=
  {| results_ := results_ self;
     insights := insights self;
     recommendations := recommendations_of (insights self) |}.

Definition generate_all_insights (self : generator) : generator :=
  let appended_to := (insights self ++ appended (results_ self))%list in
  generate_recommendations
    {| results_ := results_ self;
       insights := filter truthy_dict appended_to;
       recommendations := recommendations self |}.

(** [InsightGenerator(analysis_results)] *)
Definition init (analysis_results : results) : generator :=
  generate_all_insights
    {| results_ := analysis_results; insights := []; recommendations := [] |}.

Definition get_all_insights (self : generator) : list insight := insights self.

Definition get_insights_by_type (self : generator) (insight_type : string) : list insight :=
  filter (fun i => match get i "type" with
                   | Some t => String.eqb t insight_type
                   | None => false
                   end) (insights self).

Definition get_insights_by_severity (self : generator) (severity : string) : list insight :=
  filter (fun i => match get i "severity" with
                   | Some s => String.eqb s severity
                   | None => false
                   end) (insights self).

Definition get_key_recommendations (self : generator) : list string :=
  firstn 5 (recommendations self).

Definition nat_to_string (n : nat) : string := Z_to_string (Z.of_nat n).

(** The double quote character. *)
Definition dq : string := String "034"%char EmptyString.

(** The banner for a status line, a colour and the three counts. *)
Definition banner (status color : string) (positive warning critical : nat) : string :=
  "<div style=" ++ dq ++ "background-color:" ++ color
  ++ "; color:white; padding:15px; border-radius:8px; margin-bottom:20px;" ++ dq ++ ">"
  ++ "<h1 style=" ++ dq ++ "margin:8 px; font-size:18px;" ++ dq ++ "> " ++ status ++ "</h2>"
  ++ "<p style=" ++ dq ++ "margin:8px 0 0 0; font-size:14px; font-weight:bold;" ++ dq ++ ">"
  ++ "Dashboard shows: " ++ nat_to_string positive ++ " positive metrics, "
  ++ nat_to_string warning ++ " warnings, " ++ nat_to_string critical ++ " critical issues. "
  ++ "Review details below.</p>"
  ++ "</div>".

Definition get_summary_text (self : generator) : string :=
  let critical := List.length (get_insights_by_severity self "critical") in
  let warning := List.length (get_insights_by_severity self "warning") in
  let positive := List.length (get_insights_by_severity self "positive") in
  let '(status, color) :=
    if Nat.ltb 0 critical then
      (" CRITICAL - Immediate Action Required", "#ef4444")
    else if Nat.ltb 0 warning then
      (" CAUTION - Review Needed", "#f59e0b")
    else
      (" ON TRACK - Healthy Performance", "#10b981") in
  banner status color positive warning critical.

Record summary_counts : Type := {
  total_insights : nat;
  critical : nat;
  warning : nat;
  positive : nat;
  info : nat
}.

Record json_safe : Type := {
  json_insights : list insight;
  json_recommendations : list string;
  summary : summary_counts
}.

Definition to_json_safe (self : generator) : json_safe :=
  {| json_insights := insights self;
     json_recommendations := recommendations self;
     summary :=
       {| total_insights := List.length (insights self);
          critical := List.length (get_insights_by_severity self "critical");
          warning := List.length (get_insights_by_severity self "warning");
          positive := List.length (get_insights_by_severity self "positive");
          info := List.length (get_insights_by_severity self "info") |} |}.

End InsightGenerator.

(** ** Vocabulary of the statements *)


(** A float is a finite number between two rational bounds. *)
Definition between (lo hi : Q) (x : pyfloat) : Prop :=
  match x with
  | Fin q => lo <= q /\ q <= hi
  | _ => False
  end.








(** The per-state totals [calculate_concentration] works on. *)
Definition state_totals (df : DataFrame) : option (list (pyobj * Z)) :=
  match GeographicAnalysis._find_state_column df,
        GeographicAnalysis._find_enrollment_column df with
  | Some state_col, Some enrol_col =>
      match get_col state_col (cols df), get_col enrol_col (cols df) with
      | Some state, Some enrol =>
          match groupby_col_sum state enrol with
          | Returns g => Some g
          | Raises => None
          end
      | _, _ => None
      end
  | _, _ => None
  end.

(** States A, B, C with totals 60, 30, 10. *)
Definition abc_frame : DataFrame :=
  mkDF 3 [("state", ObjCol [Some "A"; Some "B"; Some "C"]);
          ("total", IntCol [Some 60%Z; Some 30%Z; Some 10%Z])].



(** A metric mapping with its geographic family replaced. *)
Definition with_geographic (r : Metrics.results) (g : Metrics.geographic)
  : Metrics.results :=
  {| Metrics.temporal_metrics := Metrics.temporal_metrics r;
     Metrics.geographic_metrics := Some g;
     Metrics.demographic_metrics := Metrics.demographic_metrics r;
     Metrics.quality_metrics := Metrics.quality_metrics r;
     Metrics.biometric_metrics := Metrics.biometric_metrics r;
     Metrics.update_metrics := Metrics.update_metrics r;
     Metrics.trend_metrics := Metrics.trend_metrics r |}.

(** The [daily_data] frame of [calculate_growth_rate]: the totals per date,
    when both columns are resolved, the totals are numeric and the two
    columns are not the same one. *)
Definition daily_totals (df : DataFrame) : option (list (pyobj * Z)) :=
  match AdvancedTemporalAnalysis._find_date_column df,
        AdvancedTemporalAnalysis._find_enrollment_column df with
  | Some date_col, Some enrol_col =>
      match get_col date_col (cols df), get_col enrol_col (cols df) with
      | Some dates, Some enrol =>
          match groupby_col_sum dates enrol with
          | Returns g => if String.eqb date_col enrol_col then None else Some g
          | Raises => None
          end
      | _, _ => None
      end
  | _, _ => None
  end.

(** The non-missing cells of a column. *)
Fixpoint present {A} (cells : list (option A)) : list A :=
  match cells with
  | [] => []
  | Some a :: cells' => a :: present cells'
  | None :: cells' => present cells'
  end.

(** Number of distinct non-missing values of a column. *)
Definition distinct_values (c : column) : nat :=
  match c with
  | IntCol cells => List.length (nodup Z.eq_dec (present cells))
  | ObjCol cells => List.length (nodup string_dec (present cells))
  end.


(** One date period only. *)
Definition single_day_frame : DataFrame :=
  mkDF 2 [("date", ObjCol [Some "01-03-2025"; Some "01-03-2025"]);
          ("total", IntCol [Some 40%Z; Some 2%Z])].

(** Two periods; the total goes from [a] to [b]. *)
Definition two_day_frame (a b : Z) : DataFrame :=
  mkDF 2 [("date", IntCol [Some 1%Z; Some 2%Z]);
          ("total", IntCol [Some a; Some b])].

(** The strict order of a three-way comparison. *)
Definition cmp_lt {K} (cmp : K -> K -> comparison) (a b : K) : Prop :=
  cmp a b = Lt.


(** The four severity bands. *)
Definition severities : list string := ["positive"; "info"; "warning"; "critical"].

(** A populated insight record: the six keys, a severity among the four
    bands, and an action that is not the first default recommendation. *)
Definition populated (i : InsightGenerator.insight) : Prop :=
  exists title message details action severity kind,
    i = InsightGenerator.make title message details action severity kind /\
    In severity severities /\
    action <> "Monitor all key metrics regularly".

(** The actions present in a list of insights, in order. *)
Definition actions (ins : list InsightGenerator.insight) : list string :=
  flat_map (fun i => match InsightGenerator.get i "action" with
                     | Some a => [a]
                     | None => []
                     end) ins.

Definition has_severity (allowed : list string) (i : InsightGenerator.insight) : bool :=
  InsightGenerator.severity_in i allowed.

(** An insight record with a given severity and action only. *)
Definition card (severity action : string) : InsightGenerator.insight :=
  [("action", action); ("severity", severity)].

(** A generator object holding a given list of insights. *)
Definition holding (ins : list InsightGenerator.insight) : InsightGenerator.generator :=
  {| InsightGenerator.results_ := Metrics.no_results;
     InsightGenerator.insights := ins;
     InsightGenerator.recommendations := [] |}.

(** The insight, when it is not the empty record. *)
Definition kept (i : InsightGenerator.insight) : list InsightGenerator.insight :=
  if InsightGenerator.truthy_dict i then [i] else [].

(** ** The arithmetic of the examples in binary64

    The same expressions on primitive IEEE-754 doubles, to check that the
    rational idealisation does not hide a rounding step on the inputs of the
    worked examples. *)

Module Binary64.
Import Floats.
Local Open Scope float_scope.

(** An integer cell converted to a double. *)
Definition of_Z (z : Z) : float :=
  match z with
  | Zneg p => - PrimFloat.of_uint63 (Uint63.of_Z (Zpos p))
  | _ => PrimFloat.of_uint63 (Uint63.of_Z z)
  end.

(** [(state_data / total) * 100] *)
Definition shares_of (state_data : list Z) : list float :=
  let total := of_Z (Zsum state_data) in
  List.map (fun v => of_Z v / total * 100) state_data.

(** [(shares ** 2).sum()] *)
Definition hhi_of (shares : list float) : float :=
  fold_left PrimFloat.add (List.map (fun s => s * s) shares) 0.

(** [recent_growth > 5], [recent_growth < -5] *)
Definition classify_trend (recent_growth : float) : string :=
  if 5 <? recent_growth then "upward"
  else if recent_growth <? -5 then "downward"
  else "stable".


End Binary64.


(** ** BiometricAnalysis *)

Module BiometricAnalysis.

Record coverage : Type := {
  count : Z;
  percentage : pyfloat
}.

(** [[col for col in df.columns if 'bioage' in col.lower()]] *)
Definition bio_age_cols (df : DataFrame) : list string :=
  filter (has_kw "bioage") (columns df).

(** One entry of [coverage_stats].  On a numeric column the sum is a numpy
    number and the division follows numpy (a zero divisor gives NaN).  On an
    object column holding a string the sum is a string and the division
    raises; holding only missing cells it sums to the Python integer 0, so
    the division raises on a frame without rows and gives 0 otherwise.  A
    repeated column name selects a frame, not a series, and [int(...)]
    raises. *)
Definition coverage_of (df : DataFrame) (col : string) : outcome coverage :=
  match get_col col (cols df) with
  | Some (IntCol cells) =>
      let total := DemographicAnalysis.Zcells_sum cells in
      Returns {| count := total;
                 percentage := (of_Z total / of_nat (nrows df) * Fin 100)%F |}
  | Some (ObjCol cells) =>
      if forallb (fun c => match c with None => true | Some _ => false end) cells
         && negb (Nat.eqb (nrows df) 0)
      then Returns {| count := 0;
                      percentage := (of_Z 0 / of_nat (nrows df) * Fin 100)%F |}
      else Raises
  | None => Raises
  end.

Fixpoint coverage_stats (df : DataFrame) (bio_cols : list string)
  : outcome (list (string * coverage)) :=
  match bio_cols with
  | [] => Returns []
  | col :: rest =>
      c <- coverage_of df col ;;
      cs <- coverage_stats df rest ;;
      Returns ((col, c) :: cs)
  end.

(** [analyze_biometric_coverage]; the empty list is the empty mapping. *)
Definition analyze_biometric_coverage (df : DataFrame) : list (string * coverage) :=
  match bio_age_cols df with
  | [] => []
  | bio_cols =>
      try_except
        (if DemographicAnalysis.has_dup bio_cols then Raises
         else coverage_stats df bio_cols)
        []
  end.

End BiometricAnalysis.

(** ** UpdateAnalysis *)

Module UpdateAnalysis.

Record update_ratios : Type := {
  total_enrollments : Z;
  total_biometric_updates : Z;
  total_demographic_updates : Z;
  biometric_to_enrol_ratio : pyfloat;
  demographic_to_enrol_ratio : pyfloat;
  biometric_update_percentage : pyfloat;
  demographic_update_percentage : pyfloat
}.

(** [len(df) if df is not None else 0] *)
Definition len_or_zero (df : option DataFrame) : Z :=
  match df with
  | Some d => Z.of_nat (nrows d)
  | None => 0%Z
  end.

(** [calculate_update_ratios] on the three frames of the constructor. *)
Definition calculate_update_ratios (enrol_df : DataFrame)
    (bio_df demo_df : option DataFrame) : update_ratios :=
  let enrol_count := Z.of_nat (nrows enrol_df) in
  let bio_count := len_or_zero bio_df in
  let demo_count := len_or_zero demo_df in
  let ratio (n : Z) :=
    if Z.ltb 0 enrol_count then Fin (inject_Z n / inject_Z enrol_count) else Fin 0 in
  let percent (n : Z) :=
    if Z.ltb 0 enrol_count
    then Fin (inject_Z n / inject_Z enrol_count * 100) else Fin 0 in
  {| total_enrollments := enrol_count;
     total_biometric_updates := bio_count;
     total_demographic_updates := demo_count;
     biometric_to_enrol_ratio := ratio bio_count;
     demographic_to_enrol_ratio := ratio demo_count;
     biometric_update_percentage := percent bio_count;
     demographic_update_percentage := percent demo_count |}.

End UpdateAnalysis.

(** ** The families of the metric mapping, as the dashboard fills them *)

Module Compile.

Definition of_age_distribution (d : option DemographicAnalysis.age_distribution)
  : Metrics.demographic :=
  match d with
  | None => {| Metrics.age_diversity_index := None;
               Metrics.dominant_age_percentage := None;
               Metrics.dominant_age := None;
               Metrics.gender_distribution := None |}
  | Some d =>
      {| Metrics.age_diversity_index :=
           Some (DemographicAnalysis.age_diversity_index d);
         Metrics.dominant_age_percentage :=
           Some (DemographicAnalysis.dominant_age_percentage d);
         Metrics.dominant_age := Some (OStr (DemographicAnalysis.dominant_age d));
         Metrics.gender_distribution := None |}
  end.

Definition of_coverage (stats : list (string * BiometricAnalysis.coverage))
  : list (string * Metrics.bio_value) :=
  List.map (fun kc => (fst kc,
                       Metrics.BioDict (Some (BiometricAnalysis.percentage (snd kc)))))
           stats.

Definition of_update_ratios (u : UpdateAnalysis.update_ratios) : Metrics.update :=
  {| Metrics.biometric_to_enrol_ratio :=
       Some (UpdateAnalysis.biometric_to_enrol_ratio u);
     Metrics.demographic_to_enrol_ratio :=
       Some (UpdateAnalysis.demographic_to_enrol_ratio u) |}.

(** ['overall_completeness': calculate_completeness().get('overall_completeness', 0)]
    beside the issue tally, which is passed in. *)
Definition of_completeness (c : option DataQualityAnalysis.completeness)
    (issues : option Metrics.issues) : Metrics.quality :=
  {| Metrics.overall_completeness :=
       Some (match c with
             | Some m => DataQualityAnalysis.overall_completeness m
             | None => Fin 0
             end);
     Metrics.quality_issues := issues;
     Metrics.total_records := None |}.

End Compile.

(** A metric mapping with one family replaced. *)
Definition with_temporal (r : Metrics.results)
    (t : AdvancedTemporalAnalysis.temporal_metrics) : Metrics.results :=
  {| Metrics.temporal_metrics := Some t;
     Metrics.geographic_metrics := Metrics.geographic_metrics r;
     Metrics.demographic_metrics := Metrics.demographic_metrics r;
     Metrics.quality_metrics := Metrics.quality_metrics r;
     Metrics.biometric_metrics := Metrics.biometric_metrics r;
     Metrics.update_metrics := Metrics.update_metrics r;
     Metrics.trend_metrics := Metrics.trend_metrics r |}.

Definition with_demographic (r : Metrics.results) (d : Metrics.demographic)
  : Metrics.results :=
  {| Metrics.temporal_metrics := Metrics.temporal_metrics r;
     Metrics.geographic_metrics := Metrics.geographic_metrics r;
     Metrics.demographic_metrics := Some d;
     Metrics.quality_metrics := Metrics.quality_metrics r;
     Metrics.biometric_metrics := Metrics.biometric_metrics r;
     Metrics.update_metrics := Metrics.update_metrics r;
     Metrics.trend_metrics := Metrics.trend_metrics r |}.

Definition with_quality (r : Metrics.results) (q : Metrics.quality)
  : Metrics.results :=
  {| Metrics.temporal_metrics := Metrics.temporal_metrics r;
     Metrics.geographic_metrics := Metrics.geographic_metrics r;
     Metrics.demographic_metrics := Metrics.demographic_metrics r;
     Metrics.quality_metrics := Some q;
     Metrics.biometric_metrics := Metrics.biometric_metrics r;
     Metrics.update_metrics := Metrics.update_metrics r;
     Metrics.trend_metrics := Metrics.trend_metrics r |}.

Definition with_biometric (r : Metrics.results)
    (b : list (string * Metrics.bio_value)) : Metrics.results :=
  {| Metrics.temporal_metrics := Metrics.temporal_metrics r;
     Metrics.geographic_metrics := Metrics.geographic_metrics r;
     Metrics.demographic_metrics := Metrics.demographic_metrics r;
     Metrics.quality_metrics := Metrics.quality_metrics r;
     Metrics.biometric_metrics := Some b;
     Metrics.update_metrics := Metrics.update_metrics r;
     Metrics.trend_metrics := Metrics.trend_metrics r |}.

Definition with_update (r : Metrics.results) (u : Metrics.update)
  : Metrics.results :=
  {| Metrics.temporal_metrics := Metrics.temporal_metrics r;
     Metrics.geographic_metrics := Metrics.geographic_metrics r;
     Metrics.demographic_metrics := Metrics.demographic_metrics r;
     Metrics.quality_metrics := Metrics.quality_metrics r;
     Metrics.biometric_metrics := Metrics.biometric_metrics r;
     Metrics.update_metrics := Some u;
     Metrics.trend_metrics := Metrics.trend_metrics r |}.

(** The quality label of a frame with [cells] cells of which [missing] are
    missing, in whole numbers. *)
Definition status_by_count (cells missing : Z) : string :=
  if Z.eqb cells 0 then "Poor"
  else if Z.leb (20 * missing) cells then "Excellent"
  else if Z.leb (10 * missing) cells then "Good"
  else if Z.leb (5 * missing) cells then "Moderate"
  else "Poor".



(** The temporal insight shown when no growth figures are available. *)
Definition slow_growth_card : InsightGenerator.insight :=
  InsightGenerator.make "SLOW GROWTH - Needs Attention"
    "Growth rate is 0.0% daily - below target. Trend: STABLE. The enrollment needs a boost."
    "Below 5% daily growth suggests the need for campaign improvements."
    "Review marketing campaigns and identify growth barriers"
    "warning" "temporal".


(** The sum of a numeric column. *)
Definition column_sum (c : column) : Z :=
  match c with
  | IntCol cells => DemographicAnalysis.Zcells_sum cells
  | ObjCol _ => 0%Z
  end.

(** The severity of the geographic insight for a concentration level. *)
Definition severity_of_level (level : string) : string :=
  if String.eqb level "High" then "warning"
  else if String.eqb level "Moderate" then "info"
  else "positive".

(** The state column [calculate_concentration] groups by. *)
Definition resolved_state_column (df : DataFrame) : option column :=
  match GeographicAnalysis._find_state_column df with
  | Some state_col => get_col state_col (cols df)
  | None => None
  end.

(** The severity and the action of the state-coverage insight for a number of
    states. *)
Definition coverage_severity (n : Z) : string :=
  if Z.leb 30 n then "positive" else if Z.leb 20 n then "info" else "warning".

Definition coverage_action (n : Z) : string :=
  if Z.ltb n 36
  then "Plan expansion to reach remaining " ++ Z_to_string (36 - n) ++ " regions"
  else "Maintain national coverage".



(** The eight insight types. *)
Definition insight_types : list string :=
  ["temporal"; "geographic"; "demographic"; "quality";
   "biometric"; "update"; "trend"; "capacity"].

(** The severity of the gender insight for the largest count [M] and the
    smallest count [m], in whole numbers. *)
Definition gender_severity (M m : Z) : string :=
  if Z.leb m 0 then "positive"
  else if Z.ltb (5 * M) (6 * m) then "positive"
  else if Z.ltb (2 * M) (3 * m) then "info"
  else "warning".

(** The severity of the update insight for [n] enrolment rows, [b] biometric
    update rows and [d] demographic update rows, in whole numbers. *)
Definition update_severity (n b d : Z) : string :=
  if Z.leb n 0 then "warning"
  else if Z.ltb n (2 * (b + d)) then "positive"
  else if Z.ltb n (5 * (b + d)) then "info"
  else "warning".

(** ** The dashboard: the deep-analysis block of [main] *)

Module Dashboard.

(** [analysis_results], as compiled from the filtered frame and the two
    optional update frames.  The issue tally and the volatility mapping, whose
    computation is not modelled, are passed in. *)
Definition analysis_results (filtered_df : DataFrame)
    (bio_df demo_df : option DataFrame)
    (issues : Metrics.issues) (trend_metrics : Metrics.trend) : Metrics.results :=
  {| Metrics.temporal_metrics :=
       Some (AdvancedTemporalAnalysis.calculate_growth_rate filtered_df);
     Metrics.geographic_metrics :=
       Some (Metrics.of_concentration
               (GeographicAnalysis.calculate_concentration filtered_df));
     Metrics.demographic_metrics :=
       Some (Compile.of_age_distribution
               (DemographicAnalysis.analyze_age_distribution filtered_df));
     Metrics.quality_metrics :=
       Some (Compile.of_completeness
               (DataQualityAnalysis.calculate_completeness filtered_df)
               (Some issues));
     Metrics.biometric_metrics :=
       Some (Compile.of_coverage
               (BiometricAnalysis.analyze_biometric_coverage
                  (match bio_df with Some b => b | None => filtered_df end)));
     Metrics.update_metrics :=
       Some (Compile.of_update_ratios
               (UpdateAnalysis.calculate_update_ratios filtered_df bio_df demo_df));
     Metrics.trend_metrics := Some trend_metrics |}.

(** [insight.get('severity', 'info')], the severity handed to the card. *)
Definition card_severity (i : InsightGenerator.insight) : string :=
  InsightGenerator.or_default (InsightGenerator.get i "severity") "info".

End Dashboard.

(** ** styling.py *)

Module Styling.

Record palette : Type := {
  bg : string;
  border : string;
  text : string
}.

Definition success : palette :=
  {| bg := "#E8F5E9"; border := "#4CAF50"; text := "#1B5E20" |}.
Definition warning : palette :=
  {| bg := "#FFF8E1"; border := "#FF9933"; text := "#F57F17" |}.
Definition error : palette :=
  {| bg := "#FFEBEE"; border := "#D32F2F"; text := "#B71C1C" |}.
Definition info : palette :=
  {| bg := "#E3F2FD"; border := "#001F3F"; text := "#001F3F" |}.

(** The [colors] mapping of [display_insight_card]. *)
Definition colors : list (string * palette) :=
  [("success", success); ("warning", warning); ("error", error); ("info", info)].

Fixpoint lookup (key : string) (d : list (string * palette)) : option palette :=
  match d with
  | [] => None
  | (k, v) :: d' => if String.eqb k key then Some v else lookup key d'
  end.

(** [color = colors.get(severity, colors['info'])] *)
Definition card_color (severity : string) : palette :=
  match lookup severity colors with
  | Some c => c
  | None => info
  end.

(** [percentage] of [display_progress_bar]:
    [min((value / max_value) * 100, 100) if max_value > 0 else 0]. *)
Definition progress_percentage (value max_value : Q) : Q :=
  if Qltb 0 max_value
  then let p := (value / max_value * 100)%Q in
       if Qltb 100 p then 100 else p
  else 0.

End Styling.

(** ** Anomalous days *)

Fixpoint insert_Z (x : Z) (l : list Z) : list Z :=
  match l with
  | [] => [x]
  | y :: l' => if Z.ltb y x then y :: insert_Z x l' else x :: l
  end.

Definition sort_Z (l : list Z) : list Z := fold_right insert_Z [] l.

(** [Series.quantile(q)] on whole numbers, linear interpolation: with [n]
    values in ascending order the position is [(n - 1) * q]; the result lies
    between the values on either side of it.  NaN on an empty series. *)
Definition quantile (q : Q) (values : list Z) : pyfloat :=
  let sorted := sort_Z values in
  match sorted with
  | [] => NaN
  | x :: _ =>
      let h := (inject_Z (Z.of_nat (List.length sorted) - 1) * q)%Q in
      let lo := Z.to_nat (Qfloor h) in
      let frac := (h - inject_Z (Qfloor h))%Q in
      let a := nth lo sorted x in
      let b := nth (S lo) sorted a in
      Fin (inject_Z a + (inject_Z b - inject_Z a) * frac)
  end.

Module Anomalies.

Definition lower_bound (values : list Z) : pyfloat :=
  let Q1 := quantile (1 # 4) values in
  let Q3 := quantile (3 # 4) values in
  let IQR := (Q3 - Q1)%F in
  (Q1 - Fin (3 # 2) * IQR)%F.

Definition upper_bound (values : list Z) : pyfloat :=
  let Q1 := quantile (1 # 4) values in
  let Q3 := quantile (3 # 4) values in
  let IQR := (Q3 - Q1)%F in
  (Q3 + Fin (3 # 2) * IQR)%F.

(** The rows kept by the mask. *)
Definition anomalies_of (daily_data : list (pyobj * Z)) : list (pyobj * Z) :=
  let values := List.map snd daily_data in
  filter (fun row => (of_Z (snd row) <? lower_bound values)%F
                     || (of_Z (snd row) >? upper_bound values)%F)
         daily_data.

(** The body of the [try] block, as in [calculate_growth_rate]. *)
Definition anomalies_body (date_col enrol_col : string) (df : DataFrame)
  : outcome (list (pyobj * Z)) :=
  match get_col date_col (cols df), get_col enrol_col (cols df) with
  | Some dates, Some enrol =>
      daily_data <- groupby_col_sum dates enrol ;;
      if String.eqb date_col enrol_col then Raises
      else Returns (anomalies_of daily_data)
  | _, _ => Raises
  end.

(** [detect_anomalous_days]: the rows of the returned frame, the empty list
    for a frame without rows. *)
Definition detect_anomalous_days (df : DataFrame) : list (pyobj * Z) :=
  match AdvancedTemporalAnalysis._find_date_column df,
        AdvancedTemporalAnalysis._find_enrollment_column df with
  | Some date_col, Some enrol_col =>
      try_except (anomalies_body date_col enrol_col df) []
  | _, _ => []
  end.

End Anomalies.

(** * Properties *)

(** ** Arithmetic of idealised floats *)

Lemma Qis0_false (b : Q) : ~ b == 0 -> Qis0 b = false.
Proof.
  intros H. unfold Qis0. destruct (Qeq_bool b 0) eqn:E; [|reflexivity].
  apply Qeq_bool_iff in E. contradiction.
Qed.

Lemma fdiv_fin (a b : Q) : ~ b == 0 -> fdiv (Fin a) (Fin b) = Fin (a / b).
Proof. intros H. simpl. now rewrite Qis0_false. Qed.

Lemma Qltb_true (a b : Q) : Qltb a b = true <-> a < b.
Proof.
  unfold Qltb. rewrite Bool.negb_true_iff. split; intros H.
  - apply Qnot_le_lt. intros L. apply Qle_bool_iff in L. congruence.
  - destruct (Qle_bool b a) eqn:E; [|reflexivity].
    apply Qle_bool_iff in E. exfalso. apply (Qlt_not_le _ _ H E).
Qed.

Lemma Qltb_false (a b : Q) : Qltb a b = false <-> b <= a.
Proof.
  unfold Qltb. rewrite Bool.negb_false_iff. apply Qle_bool_iff.
Qed.

Lemma inject_nat_pos (n : nat) : (0 < n)%nat -> 0 < inject_Z (Z.of_nat n).
Proof.
  intros H. change 0 with (inject_Z 0). rewrite <- Zlt_Qlt. lia.
Qed.

(** ** Data quality: completeness *)

Section Completeness.
Import DataQualityAnalysis.

Lemma some_none_count {A} (l : list (option A)) :
  (some_count l + none_count l = List.length l)%nat.
Proof.
  unfold some_count, none_count.
  induction l as [|[a|] l IH]; simpl in *; lia.
Qed.

Lemma count_plus_missing (c : column) :
  (col_count c + col_missing c = col_len c)%nat.
Proof. destruct c; apply some_none_count. Qed.

Lemma cells_partition_cols (n : nat) (cs : list (string * column)) :
  forallb (fun nc => Nat.eqb (col_len (snd nc)) n) cs = true ->
  (list_sum (List.map (fun nc => col_count (snd nc)) cs)
   + list_sum (List.map (fun nc => col_missing (snd nc)) cs)
   = n * List.length cs)%nat.
Proof.
  induction cs as [|[name c] cs IH]; simpl; intros H.
  - lia.
  - apply Bool.andb_true_iff in H. destruct H as [Hc Hcs].
    apply Nat.eqb_eq in Hc. specialize (IH Hcs).
    pose proof (count_plus_missing c). lia.
Qed.

Lemma cells_partition (df : DataFrame) :
  well_formed df = true ->
  (non_null_cells df + missing_cells df = nrows df * ncols df)%nat.
Proof. apply cells_partition_cols. Qed.

(** C6.  On a well-formed frame with at least one cell,
    [calculate_completeness] returns an [overall_completeness] equal to the
    non-missing cell count over the total cell count, times 100; it is
    exactly 100 when no cell is missing, and [(R*C - 1) / (R*C) * 100] when
    exactly one cell is missing. *)
Theorem completeness_is_cell_ratio (df : DataFrame) :
  well_formed df = true ->
  (0 < nrows df * ncols df)%nat ->
  exists m,
    calculate_completeness df = Some m /\
    let cells := inject_Z (Z.of_nat (nrows df * ncols df)) in
    overall_completeness m
      =f= Fin (inject_Z (Z.of_nat (non_null_cells df)) / cells * 100) /\
    (missing_cells df = 0%nat -> overall_completeness m =f= Fin 100) /\
    (missing_cells df = 1%nat ->
     overall_completeness m =f= Fin ((cells - 1) / cells * 100)).
Proof.
  intros Hwf Hpos.
  pose proof (cells_partition df Hwf) as Hpart.
  pose proof (inject_nat_pos _ Hpos) as Hq.
  assert (Hne : ~ inject_Z (Z.of_nat (nrows df * ncols df)) == 0)
    by (intros E; rewrite E in Hq; now apply Qlt_irrefl in Hq).
  unfold calculate_completeness.
  eexists. split; [reflexivity|]. cbn [overall_completeness].
  apply Nat.ltb_lt in Hpos. rewrite Hpos.
  unfold of_nat, of_Z. rewrite (fdiv_fin _ _ Hne). cbn [fmul feq].
  split; [reflexivity|]. split; intros Hm.
  - replace (non_null_cells df) with (nrows df * ncols df)%nat by lia.
    field. exact Hne.
  - replace (non_null_cells df) with (nrows df * ncols df - 1)%nat by lia.
    rewrite Nat2Z.inj_sub by (apply Nat.ltb_lt in Hpos; lia).
    unfold Z.sub at 1. rewrite inject_Z_plus. reflexivity.
Qed.

(** A 2 x 2 frame with one missing cell: completeness is 75. *)
Lemma completeness_is_cell_ratio_witness :
  exists m,
    calculate_completeness
      (mkDF 2 [("state", ObjCol [Some "A"; None]);
               ("total", IntCol [Some 5%Z; Some 7%Z])]) = Some m /\
    overall_completeness m =f= Fin 75.
Proof.
  destruct (completeness_is_cell_ratio
              (mkDF 2 [("state", ObjCol [Some "A"; None]);
                       ("total", IntCol [Some 5%Z; Some 7%Z])]))
    as [m [Hm [_ [_ H1]]]].
  - reflexivity.
  - simpl. lia.
  - exists m. split; [exact Hm|].
    specialize (H1 eq_refl).
    destruct (overall_completeness m); simpl in *; try contradiction.
    rewrite H1. reflexivity.
Defined.

End Completeness.

(** ** Sums *)











(** ** Demographics: the Simpson diversity index *)

Section Diversity.
Import DemographicAnalysis.










End Diversity.

(** ** Grouping is insensitive to the order of the rows *)

Section GroupByFacts.
Context {K : Type} (cmp : K -> K -> comparison).
Hypothesis cmp_eq : forall a b, cmp a b = Eq -> a = b.
Hypothesis cmp_refl : forall a, cmp a a = Eq.
Hypothesis cmp_antisym : forall a b, cmp a b = CompOpp (cmp b a).
Hypothesis cmp_trans : forall a b c, cmp a b = Lt -> cmp b c = Lt -> cmp a c = Lt.


Lemma cmp_lt_gt a b : cmp a b = Lt -> cmp b a = Gt.
Proof. intros H. rewrite cmp_antisym, H. reflexivity. Qed.







End GroupByFacts.



(** The two key orders used by [groupby_col_sum]. *)

Lemma ascii_compare_trans (a b c : ascii) :
  Ascii.compare a b = Lt -> Ascii.compare b c = Lt -> Ascii.compare a c = Lt.
Proof.
  unfold Ascii.compare. rewrite !N.compare_lt_iff. apply N.lt_trans.
Qed.

Lemma ascii_compare_refl (a : ascii) : Ascii.compare a a = Eq.
Proof. unfold Ascii.compare. apply N.compare_refl. Qed.

Lemma string_compare_refl (s : string) : String.compare s s = Eq.
Proof.
  induction s as [|a s IH]; cbn; [reflexivity|].
  now rewrite ascii_compare_refl.
Qed.

Lemma string_compare_eq (s t : string) : String.compare s t = Eq -> s = t.
Proof. apply String.compare_eq_iff. Qed.

Lemma string_compare_trans (s t u : string) :
  String.compare s t = Lt -> String.compare t u = Lt -> String.compare s u = Lt.
Proof.
  revert t u. induction s as [|a s IH]; intros [|b t] [|c u]; cbn;
    try discriminate; try reflexivity.
  destruct (Ascii.compare a b) eqn:Eab; try discriminate;
    destruct (Ascii.compare b c) eqn:Ebc; try discriminate; intros H1 H2.
  - apply Ascii.compare_eq_iff in Eab, Ebc. subst.
    rewrite ascii_compare_refl. eapply IH; eassumption.
  - apply Ascii.compare_eq_iff in Eab. subst. now rewrite Ebc.
  - apply Ascii.compare_eq_iff in Ebc. subst. now rewrite Eab.
  - now rewrite (ascii_compare_trans _ _ _ Eab Ebc).
Qed.

Lemma Z_compare_trans (a b c : Z) :
  Z.compare a b = Lt -> Z.compare b c = Lt -> Z.compare a c = Lt.
Proof. rewrite !Z.compare_lt_iff. apply Z.lt_trans. Qed.

Lemma Z_compare_eq (a b : Z) : Z.compare a b = Eq -> a = b.
Proof. apply Z.compare_eq. Qed.

(** ** Reordering the rows of a frame *)







Lemma get_col_len (n : nat) (name : string) (cs : list (string * column)) (c : column) :
  forallb (fun nc => Nat.eqb (col_len (snd nc)) n) cs = true ->
  get_col name cs = Some c -> col_len c = n.
Proof.
  induction cs as [|[m c'] cs IH]; cbn; [discriminate|].
  intros H. apply Bool.andb_true_iff in H. destruct H as [Hc Hcs].
  destruct (String.eqb m name).
  - intros E. injection E as <-. now apply Nat.eqb_eq.
  - now apply IH.
Qed.

(** ** Geography: the Herfindahl-Hirschman index *)

Section Concentration.
Import GeographicAnalysis.







(** What a returned mapping is made of. *)
Lemma calculate_concentration_inv (df : DataFrame) (c : concentration) :
  calculate_concentration df = Some c ->
  exists sd,
    state_totals df = Some sd /\
    herfindahl_index c = hhi_of (List.map snd (shares_of sd)) /\
    concentration_level c = classify (herfindahl_index c) /\
    top_state c = idxmax (shares_of sd) /\
    top_state_percentage c = series_max (List.map snd (shares_of sd)) /\
    num_states c = List.length sd.
Proof.
  unfold calculate_concentration, state_totals.
  destruct (_find_state_column df) as [sc|]; [|discriminate].
  destruct (_find_enrollment_column df) as [ec|]; [|discriminate].
  destruct (get_col sc (cols df)) as [state|]; [|discriminate].
  destruct (get_col ec (cols df)) as [enrol|]; [|discriminate].
  unfold concentration_body.
  destruct (groupby_col_sum state enrol) as [sd|]; [|discriminate].
  cbn [bind]. destruct (gini_of (List.map snd (shares_of sd))) as [g|]; [|discriminate].
  cbn. intros H. injection H as <-. exists sd. cbn. repeat split.
Qed.












(** A single state whose total is 0 has share 0 / 0, which is skipped by
    the sum: the index is then 0, not 10000. *)
Remark hhi_single_state_zero_total (k : pyobj) :
  hhi_of (List.map snd (shares_of [(k, 0%Z)])) = Fin 0.
Proof. reflexivity. Qed.


End Concentration.

(** ** The worked example: states A, B, C at 60, 30, 10 *)

(** C1.  On the frame with states A, B, C and totals 60, 30, 10 the shares are
    60, 30, 10, the Herfindahl-Hirschman index is exactly 4600, the level is
    "High", and the geographic insight of any metric mapping that carries this
    result names A with "60.0%" in its message. *)
Theorem abc_example_end_to_end :
  state_totals abc_frame
  = Some [(OStr "A", 60%Z); (OStr "B", 30%Z); (OStr "C", 10%Z)] /\
  Forall2 feq
    (List.map snd (GeographicAnalysis.shares_of
                     [(OStr "A", 60%Z); (OStr "B", 30%Z); (OStr "C", 10%Z)]))
    [Fin 60; Fin 30; Fin 10] /\
  exists c,
    GeographicAnalysis.calculate_concentration abc_frame = Some c /\
    GeographicAnalysis.herfindahl_index c =f= Fin (3600 + 900 + 100) /\
    GeographicAnalysis.herfindahl_index c =f= Fin 4600 /\
    GeographicAnalysis.concentration_level c = "High" /\
    GeographicAnalysis.top_state c = OStr "A" /\
    Binary64.shares_of [60%Z; 30%Z; 10%Z]
    = List.map Binary64.of_Z [60%Z; 30%Z; 10%Z] /\
    Binary64.hhi_of (Binary64.shares_of [60%Z; 30%Z; 10%Z]) = Binary64.of_Z 4600 /\
    forall r : Metrics.results,
      let card :=
        InsightGenerator.generate_geographic_insight
          (with_geographic r (Metrics.of_concentration (Some c))) in
      InsightGenerator.get card "message"
      = Some ("A dominates with 60.0% of all enrollments. "
              ++ "The enrollment is heavily concentrated in one region. "
              ++ "This means most of the users are from a specific area.") /\
      InsightGenerator.get card "title"
      = Some "HIGH CONCENTRATION - Unbalanced Distribution" /\
      (exists msg, InsightGenerator.get card "message" = Some msg /\
                   Str.contains "A dominates" msg = true /\
                   Str.contains "60.0%" msg = true).
Proof.
  split; [reflexivity|].
  split; [repeat constructor|].
  eexists. split; [reflexivity|].
  split; [reflexivity|]. split; [reflexivity|].
  split; [reflexivity|]. split; [reflexivity|].
  split; [reflexivity|]. split; [reflexivity|].
  intros r. split; [reflexivity|]. split; [reflexivity|].
  eexists. split; [reflexivity|]. split; reflexivity.
Qed.

(** ** The groups of [groupby_sum]: one per distinct key *)

Section GroupKeys.
Context {K : Type} (cmp : K -> K -> comparison).
Hypothesis cmp_eq : forall a b, cmp a b = Eq -> a = b.
Hypothesis cmp_refl : forall a, cmp a a = Eq.
Hypothesis cmp_antisym : forall a b, cmp a b = CompOpp (cmp b a).
Hypothesis cmp_trans : forall a b c, cmp a b = Lt -> cmp b c = Lt -> cmp a c = Lt.

Lemma add_to_group_keys k v (g : list (K * Z)) k' :
  In k' (List.map fst (add_to_group cmp k v g)) <-> k' = k \/ In k' (List.map fst g).
Proof.
  induction g as [|[k0 v0] g IH]; cbn.
  - intuition.
  - destruct (cmp k k0) eqn:E; cbn.
    + apply cmp_eq in E. subst. intuition.
    + intuition.
    + rewrite IH. intuition.
Qed.

Lemma add_to_group_sorted k v (g : list (K * Z)) :
  StronglySorted (cmp_lt cmp) (List.map fst g) ->
  StronglySorted (cmp_lt cmp) (List.map fst (add_to_group cmp k v g)).
Proof.
  induction g as [|[k0 v0] g IH]; cbn; intros Hs.
  - repeat constructor.
  - inversion Hs as [|? ? Hs' Hall]; subst.
    destruct (cmp k k0) eqn:E; cbn.
    + exact Hs.
    + constructor; [exact Hs|]. constructor; [exact E|].
      apply Forall_forall. intros x Hx.
      eapply cmp_trans; [exact E|].
      revert x Hx. now apply Forall_forall.
    + constructor; [now apply IH|].
      apply Forall_forall. intros x Hx. apply add_to_group_keys in Hx.
      destruct Hx as [->|Hx].
      * unfold cmp_lt. rewrite cmp_antisym, E. reflexivity.
      * revert x Hx. now apply Forall_forall.
Qed.

Lemma groupby_fold_keys (rows : list (K * Z)) (g : list (K * Z)) k' :
  In k' (List.map fst
           (fold_left (fun groups kv => add_to_group cmp (fst kv) (snd kv) groups) rows g))
  <-> In k' (List.map fst rows) \/ In k' (List.map fst g).
Proof.
  revert g. induction rows as [|[k v] rows IH]; intros g; cbn.
  - intuition.
  - rewrite IH, add_to_group_keys. intuition.
Qed.

Lemma groupby_fold_sorted (rows : list (K * Z)) (g : list (K * Z)) :
  StronglySorted (cmp_lt cmp) (List.map fst g) ->
  StronglySorted (cmp_lt cmp)
    (List.map fst
       (fold_left (fun groups kv => add_to_group cmp (fst kv) (snd kv) groups) rows g)).
Proof.
  revert g. induction rows as [|[k v] rows IH]; intros g Hs; cbn.
  - exact Hs.
  - apply IH, add_to_group_sorted, Hs.
Qed.

Lemma sorted_NoDup (l : list K) : StronglySorted (cmp_lt cmp) l -> NoDup l.
Proof.
  induction 1 as [|a l _ IH Hall]; constructor; [|exact IH].
  intros Hin. rewrite Forall_forall in Hall. specialize (Hall a Hin).
  unfold cmp_lt in Hall. rewrite cmp_refl in Hall. discriminate.
Qed.

(** One group per distinct key. *)
Lemma groupby_sum_length (dec : forall a b : K, {a = b} + {a <> b})
    (rows : list (K * Z)) :
  List.length (groupby_sum cmp rows) = List.length (nodup dec (List.map fst rows)).
Proof.
  rewrite <- (length_map fst (groupby_sum cmp rows)).
  apply Permutation_length, NoDup_Permutation.
  - apply sorted_NoDup, groupby_fold_sorted. constructor.
  - apply NoDup_nodup.
  - intros k. unfold groupby_sum. rewrite groupby_fold_keys, nodup_In.
    cbn. intuition.
Qed.
End GroupKeys.

Lemma keyed_rows_keys {K} (ks : list (option K)) (vs : list (option Z)) :
  List.length ks = List.length vs ->
  List.map fst (keyed_rows ks vs) = present ks.
Proof.
  revert vs. induction ks as [|[k|] ks IH]; intros [|[v|] vs] Hlen; cbn in *;
    try discriminate; try reflexivity; rewrite IH by lia; reflexivity.
Qed.

Lemma groupby_col_sum_length (key val : column) (g : list (pyobj * Z)) :
  col_len key = col_len val ->
  groupby_col_sum key val = Returns g ->
  List.length g = distinct_values key.
Proof.
  intros Hlen. destruct val as [vs|vs]; [|discriminate].
  destruct key as [ks|ks]; cbn in *; intros H; injection H as <-;
    unfold label_groups; rewrite length_map.
  - rewrite (groupby_sum_length Z.compare Z_compare_eq Z.compare_refl
               (fun a b => Z.compare_antisym b a) Z_compare_trans Z.eq_dec).
    now rewrite keyed_rows_keys.
  - rewrite (groupby_sum_length String.compare string_compare_eq
               string_compare_refl String.compare_antisym string_compare_trans
               string_dec).
    now rewrite keyed_rows_keys.
Qed.

(** ** Temporal metrics: growth rate and trend *)

Section Growth.
Import AdvancedTemporalAnalysis.










End Growth.

(** ** Insight generator: every generator returns a populated record *)

Section Insights.
Import Metrics InsightGenerator.

Ltac populated_make :=
  unfold populated; do 6 eexists;
  split; [reflexivity|];
  split; [unfold severities; cbn; tauto | cbn; discriminate].

Ltac split_branches :=
  repeat match goal with
         | |- context [if ?b then _ else _] => destruct b
         end.

Lemma temporal_populated r : populated (generate_temporal_insight r).
Proof. unfold generate_temporal_insight. split_branches; populated_make. Qed.

Lemma peak_activity_populated r : populated (generate_peak_activity_insight r).
Proof. unfold generate_peak_activity_insight. populated_make. Qed.

Lemma weekly_consistency_populated r :
  populated (generate_weekly_consistency_insight r).
Proof.
  unfold generate_weekly_consistency_insight. cbv zeta.
  match goal with |- context [fltb ?x (Fin 15)] => generalize x; intros cv end.
  destruct (fltb cv (Fin 15)); [|destruct (fltb cv (Fin 30))]; populated_make.
Qed.

Lemma geographic_populated r : populated (generate_geographic_insight r).
Proof. unfold generate_geographic_insight. split_branches; populated_make. Qed.

Lemma demographic_populated r : populated (generate_demographic_insight r).
Proof. unfold generate_demographic_insight. split_branches; populated_make. Qed.

Lemma quality_populated r : populated (generate_quality_insight r).
Proof. unfold generate_quality_insight. split_branches; populated_make. Qed.

Lemma state_coverage_populated r : populated (generate_state_coverage_insight r).
Proof.
  unfold generate_state_coverage_insight. cbv zeta.
  split_branches; populated_make.
Qed.

Lemma duplicates_populated r : populated (generate_duplicates_insight r).
Proof.
  unfold generate_duplicates_insight. cbv zeta.
  split_branches; populated_make.
Qed.

Lemma update_populated r : populated (generate_update_insight r).
Proof.
  unfold generate_update_insight. cbv zeta.
  split_branches; populated_make.
Qed.

Lemma volatility_populated r : populated (generate_volatility_insight r).
Proof.
  unfold generate_volatility_insight. cbv zeta.
  split_branches; populated_make.
Qed.

Lemma capacity_populated r : populated (generate_capacity_insight r).
Proof.
  unfold generate_capacity_insight. cbv zeta.
  split_branches; populated_make.
Qed.

Lemma gender_populated r :
  match or_default (gender_distribution (demo r)) [] with
  | [] => generate_gender_insight r = []
  | _ :: _ => populated (generate_gender_insight r)
  end.
Proof.
  unfold generate_gender_insight. cbv zeta.
  destruct (or_default (gender_distribution (demo r)) []) as [|first rest];
    [reflexivity|].
  split_branches; populated_make.
Qed.

Lemma biometric_populated r :
  match or_default (biometric_metrics r) [] with
  | [] => generate_biometric_insight r = []
  | _ :: _ => populated (generate_biometric_insight r)
  end.
Proof.
  unfold generate_biometric_insight. cbv zeta.
  destruct (or_default (biometric_metrics r) []) as [|first rest];
    [reflexivity|].
  split_branches; populated_make.
Qed.

Lemma populated_truthy i : populated i -> truthy_dict i = true.
Proof. intros (t & m & d & a & s & k & -> & _). reflexivity. Qed.

Lemma populated_severity i :
  populated i -> exists s, get i "severity" = Some s /\ In s severities.
Proof. intros (t & m & d & a & s & k & -> & Hs & _). exists s. now split. Qed.

Lemma populated_action i :
  populated i ->
  exists a, get i "action" = Some a /\ a <> "Monitor all key metrics regularly".
Proof. intros (t & m & d & a & s & k & -> & _ & Ha). exists a. now split. Qed.

(** The list built by [generate_all_insights]: the thirteen insights in
    order, without the gender and biometric ones when they are empty. *)
Lemma insights_of_init r :
  insights (init r)
  = ([ generate_quality_insight r; generate_temporal_insight r;
       generate_geographic_insight r; generate_demographic_insight r;
       generate_peak_activity_insight r; generate_weekly_consistency_insight r;
       generate_state_coverage_insight r ]
     ++ kept (generate_gender_insight r)
     ++ [ generate_duplicates_insight r ]
     ++ kept (generate_biometric_insight r)
     ++ [ generate_update_insight r; generate_volatility_insight r;
          generate_capacity_insight r ])%list.
Proof.
  unfold init, generate_all_insights, generate_recommendations.
  cbn [insights results_ app]. unfold appended. cbn [filter].
  rewrite (populated_truthy _ (quality_populated r)),
    (populated_truthy _ (temporal_populated r)),
    (populated_truthy _ (geographic_populated r)),
    (populated_truthy _ (demographic_populated r)),
    (populated_truthy _ (peak_activity_populated r)),
    (populated_truthy _ (weekly_consistency_populated r)),
    (populated_truthy _ (state_coverage_populated r)),
    (populated_truthy _ (duplicates_populated r)),
    (populated_truthy _ (update_populated r)),
    (populated_truthy _ (volatility_populated r)),
    (populated_truthy _ (capacity_populated r)).
  unfold kept.
  destruct (truthy_dict (generate_gender_insight r));
    destruct (truthy_dict (generate_biometric_insight r)); reflexivity.
Qed.

Lemma kept_populated_gender r : Forall populated (kept (generate_gender_insight r)).
Proof.
  pose proof (gender_populated r) as H. unfold kept.
  destruct (or_default (gender_distribution (demo r)) []).
  - rewrite H. constructor.
  - rewrite (populated_truthy _ H). now repeat constructor.
Qed.

Lemma kept_populated_biometric r :
  Forall populated (kept (generate_biometric_insight r)).
Proof.
  pose proof (biometric_populated r) as H. unfold kept.
  destruct (or_default (biometric_metrics r) []).
  - rewrite H. constructor.
  - rewrite (populated_truthy _ H). now repeat constructor.
Qed.

Lemma kept_length i : (List.length (kept i) <= 1)%nat.
Proof. unfold kept. destruct (truthy_dict i); cbn; lia. Qed.

Lemma insights_populated r : Forall populated (insights (init r)).
Proof.
  rewrite insights_of_init.
  repeat (apply Forall_app; split); repeat apply Forall_cons;
    auto using quality_populated, temporal_populated, geographic_populated,
      demographic_populated, peak_activity_populated,
      weekly_consistency_populated, state_coverage_populated,
      duplicates_populated, update_populated, volatility_populated,
      capacity_populated, kept_populated_gender, kept_populated_biometric.
Qed.

(** C9.  For every metric mapping the generated insight list is the thirteen
    insights in order, from which only the gender and the biometric insight
    can be missing (each is the empty record exactly when its metrics are
    absent or empty); the other eleven are always populated records.  The
    list is therefore never empty and holds between 11 and 13 insights, 11
    of them on the completely empty mapping. *)
Theorem insight_list_never_empty (r : results) :
  insights (init r)
  = ([ generate_quality_insight r; generate_temporal_insight r;
       generate_geographic_insight r; generate_demographic_insight r;
       generate_peak_activity_insight r; generate_weekly_consistency_insight r;
       generate_state_coverage_insight r ]
     ++ kept (generate_gender_insight r)
     ++ [ generate_duplicates_insight r ]
     ++ kept (generate_biometric_insight r)
     ++ [ generate_update_insight r; generate_volatility_insight r;
          generate_capacity_insight r ])%list /\
  Forall populated
    [ generate_quality_insight r; generate_temporal_insight r;
      generate_geographic_insight r; generate_demographic_insight r;
      generate_peak_activity_insight r; generate_weekly_consistency_insight r;
      generate_state_coverage_insight r; generate_duplicates_insight r;
      generate_update_insight r; generate_volatility_insight r;
      generate_capacity_insight r ] /\
  (generate_gender_insight r = []
   <-> or_default (gender_distribution (demo r)) [] = []) /\
  (generate_biometric_insight r = []
   <-> or_default (biometric_metrics r) [] = []) /\
  insights (init r) <> [] /\
  (11 <= List.length (insights (init r)) <= 13)%nat /\
  List.length (insights (init no_results)) = 11%nat.
Proof.
  split; [apply insights_of_init|].
  split.
  { repeat apply Forall_cons;
      auto using quality_populated, temporal_populated, geographic_populated,
        demographic_populated, peak_activity_populated,
        weekly_consistency_populated, state_coverage_populated,
        duplicates_populated, update_populated, volatility_populated,
        capacity_populated. }
  split.
  { pose proof (gender_populated r) as H.
    destruct (or_default (gender_distribution (demo r)) []).
    - now split.
    - split; [|discriminate]. intros E. apply populated_truthy in H.
      rewrite E in H. discriminate. }
  split.
  { pose proof (biometric_populated r) as H.
    destruct (or_default (biometric_metrics r) []).
    - now split.
    - split; [|discriminate]. intros E. apply populated_truthy in H.
      rewrite E in H. discriminate. }
  rewrite insights_of_init.
  split; [discriminate|]. split; [|reflexivity].
  rewrite !length_app. cbn [List.length].
  pose proof (kept_length (generate_gender_insight r)).
  pose proof (kept_length (generate_biometric_insight r)).
  lia.
Qed.

(** Counting by severity. *)
Lemma severity_counts_partition (ins : list insight) :
  Forall (fun i => exists s, get i "severity" = Some s /\ In s severities) ins ->
  (List.length (get_insights_by_severity (holding ins) "critical")
   + List.length (get_insights_by_severity (holding ins) "warning")
   + List.length (get_insights_by_severity (holding ins) "positive")
   + List.length (get_insights_by_severity (holding ins) "info")
   = List.length ins)%nat.
Proof.
  unfold get_insights_by_severity, holding. cbn [insights].
  induction 1 as [|i ins (s & Hs & Hin) _ IH]; [reflexivity|].
  cbn [filter]. rewrite Hs.
  unfold severities in Hin. cbn in Hin.
  destruct Hin as [<-|[<-|[<-|[<-|[]]]]]; cbn [String.eqb Ascii.eqb Bool.eqb List.length];
    cbn; lia.
Qed.

(** C10.  Every insight kept in the generated list has a severity among
    "positive", "info", "warning" and "critical", so the four severity counts
    of the [to_json_safe] export add up to [total_insights]. *)
Theorem severity_counts_sum_to_total (r : results) :
  Forall (fun i => exists s, get i "severity" = Some s /\
                             (s = "positive" \/ s = "info" \/
                              s = "warning" \/ s = "critical"))
         (insights (init r)) /\
  let counts := summary (to_json_safe (init r)) in
  (critical counts + warning counts + positive counts + info counts
   = total_insights counts)%nat.
Proof.
  pose proof (insights_populated r) as Hpop.
  assert (Hsev : Forall (fun i => exists s, get i "severity" = Some s /\ In s severities)
                        (insights (init r))).
  { eapply Forall_impl; [|exact Hpop]. intros i. apply populated_severity. }
  split.
  - eapply Forall_impl; [|exact Hsev]. intros i (s & Hs & Hin).
    exists s. split; [exact Hs|].
    unfold severities in Hin. cbn in Hin. intuition.
  - cbn. exact (severity_counts_partition (insights (init r)) Hsev).
Qed.

(** ** Recommendations *)

Lemma actions_with_default (default : string) (l : list insight) :
  Forall populated l ->
  List.map (fun i => or_default (get i "action") default) l = actions l.
Proof.
  induction 1 as [|i l Hi _ IH]; [reflexivity|].
  cbn [List.map actions flat_map]. fold (actions l). rewrite IH.
  destruct (populated_action i Hi) as (a & -> & _). reflexivity.
Qed.

Lemma actions_not_default (l : list insight) :
  Forall populated l ->
  Forall (fun a => a <> "Monitor all key metrics regularly") (actions l).
Proof.
  induction 1 as [|i l Hi _ IH]; [constructor|].
  cbn [actions flat_map]. fold (actions l).
  destruct (populated_action i Hi) as (a & -> & Ha). now constructor.
Qed.

Lemma actions_nil (l : list insight) :
  Forall populated l -> actions l = [] -> l = [].
Proof.
  intros H. destruct H as [|i l Hi _]; [reflexivity|].
  cbn [actions flat_map]. destruct (populated_action i Hi) as (a & -> & _).
  discriminate.
Qed.

Lemma Forall_filter {A} (P : A -> Prop) (f : A -> bool) (l : list A) :
  Forall P l -> Forall P (filter f l).
Proof.
  induction 1 as [|x l Hx _ IH]; cbn; [constructor|].
  destruct (f x); [now constructor | exact IH].
Qed.

Lemma filter_nil_forall {A} (f : A -> bool) (l : list A) :
  filter f l = [] <-> Forall (fun x => f x = false) l.
Proof.
  induction l as [|x l IH]; cbn.
  - split; [constructor | reflexivity].
  - destruct (f x) eqn:E.
    + split; [discriminate|]. intros H. inversion H; congruence.
    + rewrite IH. split; [now constructor | intros H; now inversion H].
Qed.

Lemma filter_implied {A} (p q : A -> bool) (l : list A) :
  (forall x, p x = true -> q x = true) ->
  filter p (filter q l) = filter p l.
Proof.
  intros Hpq. induction l as [|x l IH]; cbn; [reflexivity|].
  destruct (q x) eqn:Eq; cbn.
  - now rewrite IH.
  - destruct (p x) eqn:Ep; [|exact IH].
    apply Hpq in Ep. congruence.
Qed.

Lemma severity_three_way (i : insight) :
  has_severity ["critical"; "warning"; "positive"] i
  = has_severity ["critical"; "warning"] i || has_severity ["positive"] i.
Proof.
  unfold has_severity, severity_in. destruct (get i "severity") as [s|]; [|reflexivity].
  cbn. now rewrite !Bool.orb_false_r, Bool.orb_assoc.
Qed.

Lemma qualifying_not_info (allowed : list string) (i : insight) :
  ~ In "info" allowed ->
  has_severity allowed i = true -> negb (has_severity ["info"] i) = true.
Proof.
  unfold has_severity, severity_in. intros Hnot.
  destruct (get i "severity") as [s|]; [|reflexivity].
  intros H. apply existsb_exists in H. destruct H as (x & Hx & E).
  apply String.eqb_eq in E. subst x. cbn. rewrite Bool.orb_false_r.
  destruct (String.eqb s "info") eqn:E; [|reflexivity].
  apply String.eqb_eq in E. subst s. contradiction.
Qed.

Lemma recommendations_length (l : list insight) :
  (List.length (recommendations_of l) <= 10)%nat.
Proof. unfold recommendations_of. apply firstn_le_length. Qed.

Lemma recommendations_ignore_info (l : list insight) :
  recommendations_of l
  = recommendations_of (filter (fun i => negb (has_severity ["info"] i)) l).
Proof.
  unfold recommendations_of.
  rewrite !(filter_implied _ (fun i => negb (has_severity ["info"] i))).
  - reflexivity.
  - intros i. apply qualifying_not_info. cbn. intros [H|[]]. discriminate.
  - intros i. apply qualifying_not_info. cbn. intros [H|[H|[]]]; discriminate.
Qed.

(** C7.  On every generated insight list the recommendations are the actions
    of the critical and warning insights, in insight order, followed by the
    actions of the positive insights, cut to the first 10; they are the four
    default recommendations exactly when no insight is critical, warning or
    positive.  Insights of severity info contribute nothing: removing them
    from any list leaves the recommendations unchanged, and the list of
    severities critical, positive, warning, info yields the critical, the
    warning and then the positive action. *)
Theorem recommendations_follow_severity (r : results) :
  let ins := insights (init r) in
  let recs := recommendations (init r) in
  let corrective := actions (filter (has_severity ["critical"; "warning"]) ins) in
  let reinforcing := actions (filter (has_severity ["positive"]) ins) in
  ((corrective ++ reinforcing)%list <> [] ->
   recs = firstn 10 (corrective ++ reinforcing)%list) /\
  (List.length recs <= 10)%nat /\
  (recs = default_recommendations
   <-> Forall (fun i => has_severity ["critical"; "warning"; "positive"] i = false) ins) /\
  (forall l : list insight,
     recommendations_of l
     = recommendations_of (filter (fun i => negb (has_severity ["info"] i)) l)) /\
  (forall a1 a2 a3 a4 : string,
     recommendations_of [card "critical" a1; card "positive" a2;
                         card "warning" a3; card "info" a4]
     = [a1; a3; a2]).
Proof.
  intros ins recs corrective reinforcing.
  pose proof (insights_populated r) as Hpop. fold ins in Hpop.
  assert (Hrecs : recs = recommendations_of ins) by reflexivity.
  assert (Hc : List.map (fun i => or_default (get i "action") "Review insight")
                 (filter (fun i => severity_in i ["critical"; "warning"]) ins)
               = corrective)
    by (apply actions_with_default, Forall_filter, Hpop).
  assert (Hp : List.map (fun i => or_default (get i "action") "Continue current approach")
                 (filter (fun i => severity_in i ["positive"]) ins)
               = reinforcing)
    by (apply actions_with_default, Forall_filter, Hpop).
  assert (Hform : recs = firstn 10 (match (corrective ++ reinforcing)%list with
                                    | [] => default_recommendations
                                    | _ => (corrective ++ reinforcing)%list
                                    end)).
  { rewrite Hrecs. unfold recommendations_of. now rewrite Hc, Hp. }
  assert (Hnd : Forall (fun a => a <> "Monitor all key metrics regularly")
                       (corrective ++ reinforcing)%list).
  { apply Forall_app. split; apply actions_not_default, Forall_filter, Hpop. }
  split; [|split; [|split; [|split]]].
  - intros Hne. rewrite Hform.
    destruct (corrective ++ reinforcing)%list; [congruence | reflexivity].
  - rewrite Hrecs. apply recommendations_length.
  - split.
    + intros Hdef. rewrite Hform in Hdef.
      destruct (corrective ++ reinforcing)%list as [|a quals] eqn:Eq.
      * apply app_eq_nil in Eq. destruct Eq as [Ec Er].
        apply actions_nil in Ec; [|apply Forall_filter, Hpop].
        apply actions_nil in Er; [|apply Forall_filter, Hpop].
        apply filter_nil_forall in Ec, Er.
        rewrite Forall_forall in *. intros i Hi.
        rewrite severity_three_way, (Ec i Hi), (Er i Hi). reflexivity.
      * inversion Hnd as [|? ? Ha _]; subst. cbn in Hdef.
        injection Hdef as Ea _. congruence.
    + intros Hnone.
      assert (Ec : filter (has_severity ["critical"; "warning"]) ins = []).
      { apply filter_nil_forall. eapply Forall_impl; [|exact Hnone].
        intros i Hi. cbv beta in Hi. rewrite severity_three_way in Hi.
        now apply Bool.orb_false_iff in Hi. }
      assert (Er : filter (has_severity ["positive"]) ins = []).
      { apply filter_nil_forall. eapply Forall_impl; [|exact Hnone].
        intros i Hi. cbv beta in Hi. rewrite severity_three_way in Hi.
        now apply Bool.orb_false_iff in Hi. }
      rewrite Hform. unfold corrective, reinforcing. rewrite Ec, Er. reflexivity.
  - apply recommendations_ignore_info.
  - intros a1 a2 a3 a4. reflexivity.
Qed.

(** The recommendations on the completely empty mapping: the five actions of
    the critical and warning insights, then the four of the positive ones. *)
Lemma recommendations_follow_severity_witness :
  recommendations (init no_results)
  = [ "Urgently review and fix data collection procedures";
      "Review marketing campaigns and identify growth barriers";
      "Launch immediate diversity and inclusion campaigns";
      "Plan expansion to reach remaining 36 regions";
      "Encourage regular data updates and maintenance";
      "Continue expanding in new regions";
      "Plan staffing and resources based on consistency level";
      "Implement duplicate detection and removal procedures";
      "Maintain current capacity" ].
Proof.
  rewrite (proj1 (recommendations_follow_severity no_results));
    [reflexivity | discriminate].
Defined.

(** ** The summary banner *)

(** C8.  The banner of [get_summary_text] follows the severity counts in a
    fixed order: with at least one critical insight it is the red
    "CRITICAL" banner; otherwise with at least one warning insight it is the
    amber "CAUTION" banner; otherwise it is the green "ON TRACK" banner. *)
Theorem summary_banner_by_severity (g : generator) :
  let n_critical := List.length (get_insights_by_severity g "critical") in
  let n_warning := List.length (get_insights_by_severity g "warning") in
  let n_positive := List.length (get_insights_by_severity g "positive") in
  ((0 < n_critical)%nat ->
   get_summary_text g
   = banner " CRITICAL - Immediate Action Required" "#ef4444"
       n_positive n_warning n_critical) /\
  (n_critical = 0%nat -> (0 < n_warning)%nat ->
   get_summary_text g
   = banner " CAUTION - Review Needed" "#f59e0b"
       n_positive n_warning n_critical) /\
  (n_critical = 0%nat -> n_warning = 0%nat ->
   get_summary_text g
   = banner " ON TRACK - Healthy Performance" "#10b981"
       n_positive n_warning n_critical) /\
  (forall p w c : nat,
     Str.contains "background-color:#ef4444"
       (banner " CRITICAL - Immediate Action Required" "#ef4444" p w c) = true /\
     Str.contains "CRITICAL"
       (banner " CRITICAL - Immediate Action Required" "#ef4444" p w c) = true /\
     Str.contains "background-color:#f59e0b"
       (banner " CAUTION - Review Needed" "#f59e0b" p w c) = true /\
     Str.contains "CAUTION"
       (banner " CAUTION - Review Needed" "#f59e0b" p w c) = true /\
     Str.contains "background-color:#10b981"
       (banner " ON TRACK - Healthy Performance" "#10b981" p w c) = true /\
     Str.contains "ON TRACK"
       (banner " ON TRACK - Healthy Performance" "#10b981" p w c) = true).
Proof.
  intros n_critical n_warning n_positive. unfold get_summary_text.
  fold n_critical n_warning n_positive.
  split; [|split; [|split]].
  - intros H. apply Nat.ltb_lt in H. now rewrite H.
  - intros Hc Hw. apply Nat.ltb_lt in Hw. rewrite Hc in *. now rewrite Hw.
  - intros Hc Hw. rewrite Hc, Hw. reflexivity.
  - intros p w c. repeat split; reflexivity.
Qed.

(** On the completely empty mapping two insights are critical: the banner is
    the red one. *)
Lemma summary_banner_by_severity_witness :
  get_summary_text (init no_results)
  = banner " CRITICAL - Immediate Action Required" "#ef4444" 4 3 2.
Proof.
  apply (proj1 (summary_banner_by_severity (init no_results))).
  cbn. lia.
Defined.

End Insights.

(** * Further properties of the code *)

(** ** The column resolver *)

Lemma prefix_split (x s : string) :
  prefix x s = true <-> exists b, s = x ++ b.
Proof.
  revert s. induction x as [|c x IH]; intros s.
  - split; [intros _; now exists s | intros _; now destruct s].
  - destruct s as [|d s]; cbn;
      [split; [discriminate | intros [b H]; discriminate]|].
    destruct (ascii_dec c d) as [<-|Hne].
    + rewrite IH. split; intros [b H]; exists b; [now rewrite H | now injection H].
    + split; [discriminate|]. intros [b H]. injection H as H _. congruence.
Qed.

Lemma contains_nil (x : string) :
  Str.contains x EmptyString = prefix x EmptyString.
Proof. unfold Str.contains. now destruct (prefix x EmptyString). Qed.

Lemma contains_cons (x : string) (c : ascii) (s : string) :
  Str.contains x (String c s)
  = if prefix x (String c s) then true else Str.contains x s.
Proof. reflexivity. Qed.

Lemma contains_split (x s : string) :
  Str.contains x s = true <-> exists a b, s = a ++ x ++ b.
Proof.
  split.
  - induction s as [|c s IH].
    + rewrite contains_nil. intros E. apply prefix_split in E.
      destruct E as [b E]. exists EmptyString, b. exact E.
    + rewrite contains_cons. destruct (prefix x (String c s)) eqn:E.
      * intros _. apply prefix_split in E. destruct E as [b E].
        exists EmptyString, b. exact E.
      * intros H. destruct (IH H) as (a & b & ->).
        exists (String c a), b. reflexivity.
  - intros (a & b & ->). induction a as [|c a IH].
    + cbn [append].
      assert (E : prefix x (x ++ b) = true) by (apply prefix_split; now exists b).
      destruct (x ++ b) as [|d y].
      * now rewrite contains_nil.
      * now rewrite contains_cons, E.
    + cbn [append]. rewrite contains_cons, IH. now destruct (prefix x _).
Qed.

Lemma append_assoc (a b c : string) : (a ++ b) ++ c = a ++ (b ++ c).
Proof. induction a as [|x a IH]; cbn; [reflexivity | now rewrite IH]. Qed.

Lemma contains_suffix (p x s : string) :
  Str.contains (p ++ x) s = true -> Str.contains x s = true.
Proof.
  intros H. apply contains_split in H. destruct H as (a & b & ->).
  apply contains_split. exists (a ++ p), b.
  now rewrite !append_assoc.
Qed.

(** X1.  The resolver returns the first column that matches, and nothing
    when no column matches: a later match never wins over an earlier one. *)
Theorem resolver_first_match (matches : string -> bool) (df : DataFrame) :
  (forall c, find_column matches df = Some c <->
             exists before after,
               columns df = (before ++ c :: after)%list /\
               matches c = true /\
               Forall (fun x => matches x = false) before) /\
  (find_column matches df = None <->
   Forall (fun x => matches x = false) (columns df)).
Proof.
  unfold find_column. generalize (columns df). intros l. split.
  - intros c. split.
    + induction l as [|x l IH]; cbn; [discriminate|].
      destruct (matches x) eqn:E.
      * intros H. injection H as <-. exists [], l. now repeat split.
      * intros H. destruct (IH H) as (before & after & -> & Hc & Hb).
        exists (x :: before), after. repeat split; [exact Hc | now constructor].
    + intros (before & after & -> & Hc & Hb).
      induction Hb as [|x before Hx _ IH]; cbn.
      * now rewrite Hc.
      * now rewrite Hx.
  - induction l as [|x l IH]; cbn.
    + split; [constructor | reflexivity].
    + destruct (matches x) eqn:E.
      * split; [discriminate|]. intros H. inversion H; congruence.
      * rewrite IH. split; [now constructor | intros H; now inversion H].
Qed.

Lemma lower_upper_ascii (c : ascii) :
  Str.lower_ascii (Str.upper_ascii c) = Str.lower_ascii c.
Proof.
  destruct c as [[] [] [] [] [] [] [] []]; reflexivity.
Qed.

Lemma lower_lower_ascii (c : ascii) :
  Str.lower_ascii (Str.lower_ascii c) = Str.lower_ascii c.
Proof.
  destruct c as [[] [] [] [] [] [] [] []]; reflexivity.
Qed.

(** X2.  Column matching ignores the case of ASCII letters in the column
    name: a name, its upper-case form and its lower-case form contain the same
    keywords. *)
Theorem resolver_ignores_case (kw col : string) :
  has_kw kw (Str.upper col) = has_kw kw col /\
  has_kw kw (Str.lower col) = has_kw kw col.
Proof.
  unfold has_kw, Str.lower, Str.upper. split; f_equal.
  - induction col as [|c col IH]; cbn; [reflexivity|].
    now rewrite lower_upper_ascii, IH.
  - induction col as [|c col IH]; cbn; [reflexivity|].
    now rewrite lower_lower_ascii, IH.
Qed.

(** X3.  Every column that [BiometricAnalysis] takes as a biometric-age
    column is also taken by [DemographicAnalysis] as an age bucket, because
    "bioage" contains "age". *)
Theorem biometric_columns_are_age_columns (df : DataFrame) :
  incl (BiometricAnalysis.bio_age_cols df) (DemographicAnalysis._find_age_columns df) /\
  (forall col, has_kw "bioage" col = true -> has_kw "age" col = true).
Proof.
  assert (H : forall col, has_kw "bioage" col = true -> has_kw "age" col = true).
  { intros col. unfold has_kw. apply (contains_suffix "bio" "age"). }
  split; [|exact H].
  unfold BiometricAnalysis.bio_age_cols, DemographicAnalysis._find_age_columns.
  intros col Hin. apply filter_In in Hin. destruct Hin as [Hin Hk].
  apply filter_In. split; [exact Hin | now apply H].
Qed.

(** X4.  Whenever [GeographicAnalysis] resolves an enrollment column,
    [AdvancedTemporalAnalysis] resolves one too; it is the same column unless a
    column whose name contains "enrol" comes first, which the temporal
    analysis then takes instead. *)
Theorem temporal_total_column_precedes_geographic (df : DataFrame) (g : string) :
  GeographicAnalysis._find_enrollment_column df = Some g ->
  exists t,
    AdvancedTemporalAnalysis._find_enrollment_column df = Some t /\
    (t = g \/ (has_kw "enrol" t = true /\ has_kw "total" t = false)).
Proof.
  unfold GeographicAnalysis._find_enrollment_column,
    AdvancedTemporalAnalysis._find_enrollment_column, find_column.
  generalize (columns df). intros l.
  induction l as [|x l IH]; cbn; [discriminate|].
  destruct (has_kw "total" x) eqn:Et; cbn.
  - intros H. injection H as <-. exists x. split; [reflexivity | now left].
  - destruct (has_kw "enrol" x) eqn:Ee.
    + intros _. exists x. split; [reflexivity | right; now split].
    + exact IH.
Qed.

(** The columns [enrolment_count], [total]: geography sums [total], the
    temporal analysis sums [enrolment_count]. *)
Lemma temporal_total_column_precedes_geographic_witness :
  exists t,
    AdvancedTemporalAnalysis._find_enrollment_column
      (mkDF 0 [("enrolment_count", IntCol []); ("total", IntCol [])]) = Some t /\
    t = "enrolment_count".
Proof.
  destruct (temporal_total_column_precedes_geographic
              (mkDF 0 [("enrolment_count", IntCol []); ("total", IntCol [])])
              "total" eq_refl) as (t & Ht & _).
  exists t. split; [exact Ht|].
  cbn in Ht. now injection Ht.
Defined.

(** ** Data quality *)

Lemma percent_lt (n c t : Z) :
  (0 < c)%Z ->
  Qltb (inject_Z n / inject_Z c * 100) (inject_Z t) = (100 * n <? t * c)%Z.
Proof.
  intros Hc. destruct c as [|p|p]; try lia.
  destruct (100 * n <? t * Z.pos p)%Z eqn:E.
  - apply Z.ltb_lt in E. apply Qltb_true.
    unfold Qlt, Qdiv, Qmult, Qinv, inject_Z. cbn. lia.
  - apply Z.ltb_ge in E. apply Qltb_false.
    unfold Qle, Qdiv, Qmult, Qinv, inject_Z. cbn. lia.
Qed.

Lemma percent_range (n c : Z) :
  (0 < c)%Z -> (0 <= n <= c)%Z ->
  0 <= inject_Z n / inject_Z c * 100 /\ inject_Z n / inject_Z c * 100 <= 100.
Proof.
  intros Hc Hn. destruct c as [|p|p]; try lia.
  unfold Qle, Qdiv, Qmult, Qinv, inject_Z. cbn. split; lia.
Qed.

Section QualityFacts.
Import DataQualityAnalysis.

(** X5.  On a well-formed frame the overall completeness is a percentage
    between 0 and 100 and [null_percentage] is its complement to 100; a frame
    without any cell (no row or no column) counts as 0 complete, 100 null. *)
Theorem completeness_is_a_percentage (df : DataFrame) :
  well_formed df = true ->
  exists m,
    calculate_completeness df = Some m /\
    between 0 100 (overall_completeness m) /\
    (overall_completeness m + null_percentage m)%F =f= Fin 100 /\
    ((nrows df * ncols df = 0)%nat ->
     overall_completeness m = Fin 0 /\ null_percentage m =f= Fin 100).
Proof.
  intros Hwf. pose proof (cells_partition df Hwf) as Hpart.
  unfold calculate_completeness. eexists. split; [reflexivity|].
  cbn [overall_completeness null_percentage].
  destruct (Nat.ltb 0 (nrows df * ncols df)) eqn:Hpos.
  - apply Nat.ltb_lt in Hpos.
    assert (Hne : ~ inject_Z (Z.of_nat (nrows df * ncols df)) == 0).
    { intros E. unfold Qeq in E. cbn in E. lia. }
    unfold of_nat, of_Z. rewrite (fdiv_fin _ _ Hne). cbn [fmul fsub fadd fneg feq between].
    split; [apply percent_range; lia|]. split; [ring | lia].
  - apply Nat.ltb_ge in Hpos. cbn. repeat split; try discriminate; intros; ring.
Qed.

(** A frame with columns and no row. *)
Lemma completeness_is_a_percentage_witness :
  exists m,
    calculate_completeness (mkDF 0 [("state", ObjCol []); ("total", IntCol [])]) = Some m /\
    overall_completeness m = Fin 0.
Proof.
  destruct (completeness_is_a_percentage
              (mkDF 0 [("state", ObjCol []); ("total", IntCol [])]) eq_refl)
    as (m & Hm & _ & _ & Hzero).
  exists m. split; [exact Hm|]. now apply Hzero.
Defined.

(** X6.  The quality label depends only on the number of cells and of missing
    cells: "Excellent" when at most one cell in 20 is missing, "Good" when at
    most one in 10, "Moderate" when at most one in 5, "Poor" otherwise, and
    "Poor" for a frame without any cell. *)
Theorem quality_status_by_missing_cells (df : DataFrame) :
  well_formed df = true ->
  get_quality_status df
  = status_by_count (Z.of_nat (nrows df * ncols df)) (Z.of_nat (missing_cells df)).
Proof.
  intros Hwf. pose proof (cells_partition df Hwf) as Hpart.
  unfold get_quality_status, calculate_completeness, status_by_count.
  cbn [overall_completeness].
  destruct (Nat.ltb 0 (nrows df * ncols df)) eqn:Hpos.
  - apply Nat.ltb_lt in Hpos.
    assert (Hne : ~ inject_Z (Z.of_nat (nrows df * ncols df)) == 0).
    { intros E. unfold Qeq in E. cbn in E. lia. }
    unfold of_nat, of_Z. rewrite (fdiv_fin _ _ Hne). cbn [fmul].
    unfold fgeb, fleb. cbn [fltb].
    change (Fin 95) with (Fin (inject_Z 95)).
    rewrite !(percent_lt _ _ 95), !(percent_lt _ _ 90), !(percent_lt _ _ 80) by lia.
    replace (Z.of_nat (nrows df * ncols df) =? 0)%Z with false
      by (symmetry; apply Z.eqb_neq; lia).
    set (c := Z.of_nat (nrows df * ncols df)) in *.
    set (m := Z.of_nat (missing_cells df)) in *.
    replace (Z.of_nat (non_null_cells df)) with (c - m)%Z by (unfold c, m; lia).
    repeat match goal with
           | |- context [Z.ltb ?a ?b] => destruct (Z.ltb_spec a b)
           | |- context [Z.leb ?a ?b] => destruct (Z.leb_spec a b)
           end; cbn; try reflexivity; lia.
  - apply Nat.ltb_ge in Hpos.
    replace (Z.of_nat (nrows df * ncols df) =? 0)%Z with true
      by (symmetry; apply Z.eqb_eq; lia).
    reflexivity.
Qed.

(** Forty cells, three of them missing: "Good". *)
Lemma quality_status_by_missing_cells_witness :
  get_quality_status
    (mkDF 20 [("a", IntCol (repeat (Some 1%Z) 20));
              ("b", IntCol (repeat None 3 ++ repeat (Some 1%Z) 17))]) = "Good".
Proof.
  rewrite quality_status_by_missing_cells; reflexivity.
Defined.

End QualityFacts.

(** ** Grouped totals *)








(** ** Temporal metrics: totals, peak, and the insights built on them *)

Section GrowthFacts.
Import AdvancedTemporalAnalysis Metrics InsightGenerator.

Lemma calculate_growth_rate_shape (df : DataFrame) :
  calculate_growth_rate df = empty \/
  calculate_growth_rate df = too_short \/
  calculate_growth_rate df = error_only \/
  (exists daily, daily_totals df = Some daily /\ (2 <= List.length daily)%nat).
Proof.
  unfold calculate_growth_rate, daily_totals.
  destruct (_find_date_column df) as [dc|]; [|now left].
  destruct (_find_enrollment_column df) as [ec|]; [|now left].
  unfold growth_body.
  destruct (get_col dc (cols df)) as [dates|]; [|right; right; now left].
  destruct (get_col ec (cols df)) as [[vs|vs]|]; [| |right; right; now left].
  - destruct (groupby_col_sum dates (IntCol vs)) as [g|]; [|right; right; now left].
    cbn [bind]. destruct (String.eqb dc ec); [right; right; now left|].
    destruct g as [|a [|b g]]; cbn [try_except].
    + right. now left.
    + right. now left.
    + right. right. right. eexists. split; [reflexivity | cbn; lia].
  - destruct (groupby_col_sum dates (IntCol (List.map (fun _ => None) vs))) as [g|];
      [|right; right; now left].
    cbn [bind]. destruct (String.eqb dc ec); [right; right; now left|].
    destruct g as [|a [|b g]]; cbn [try_except];
      [right; now left | right; now left | right; right; now left].
Qed.









(** X9.  Whenever [calculate_growth_rate] has no growth figures to report (a
    column is unresolved, fewer than two date periods, or an exception), the
    temporal insight built from its result is the "SLOW GROWTH" warning with a
    growth of 0.0% and the trend STABLE. *)
Theorem no_growth_figures_give_slow_growth (df : DataFrame) (r : results) :
  (forall daily, daily_totals df = Some daily -> (List.length daily < 2)%nat) ->
  generate_temporal_insight (with_temporal r (calculate_growth_rate df))
  = slow_growth_card.
Proof.
  intros Hshort.
  destruct (calculate_growth_rate_shape df) as [H|[H|[H|(daily & Hd & Hlen)]]];
    try (rewrite H; reflexivity).
  specialize (Hshort daily Hd). lia.
Qed.

(** A frame with a single date. *)
Lemma no_growth_figures_give_slow_growth_witness :
  generate_temporal_insight
    (with_temporal no_results (calculate_growth_rate single_day_frame))
  = slow_growth_card.
Proof.
  apply no_growth_figures_give_slow_growth.
  intros daily H. cbn in H. injection H as <-. cbn. lia.
Defined.

End GrowthFacts.

Section CapacityFacts.
Import AdvancedTemporalAnalysis Metrics InsightGenerator.





End CapacityFacts.

(** ** Geography: level, top state, shares, coverage *)

Section GeographyFacts.
Import GeographicAnalysis Metrics InsightGenerator.

(** X11.  The concentration level of [calculate_concentration] and the
    geographic insight built from the same result always agree: "High" gives
    the warning "HIGH CONCENTRATION", "Moderate" the info insight, "Low" the
    positive "BALANCED DISTRIBUTION". *)
Theorem level_and_geographic_insight_agree
    (df : DataFrame) (c : concentration) (r : results) :
  calculate_concentration df = Some c ->
  In (concentration_level c) ["High"; "Moderate"; "Low"] /\
  get (generate_geographic_insight (with_geographic r (of_concentration (Some c))))
      "severity"
  = Some (severity_of_level (concentration_level c)).
Proof.
  intros Hc.
  destruct (calculate_concentration_inv df c Hc) as (sd & _ & _ & Hlevel & _).
  rewrite Hlevel. unfold generate_geographic_insight, geo, with_geographic, of_concentration.
  cbn [geographic_metrics or_default Metrics.herfindahl_index].
  unfold classify.
  destruct (fgtb (GeographicAnalysis.herfindahl_index c) (Fin 2500));
    [|destruct (fgtb (GeographicAnalysis.herfindahl_index c) (Fin 2000))];
    (split; [cbn; tauto | reflexivity]).
Qed.

(** States A, B, C at 60, 30, 10: level "High", insight severity warning. *)
Lemma level_and_geographic_insight_agree_witness :
  exists c,
    calculate_concentration abc_frame = Some c /\
    get (generate_geographic_insight
           (with_geographic no_results (of_concentration (Some c)))) "severity"
    = Some "warning".
Proof.
  destruct (calculate_concentration abc_frame) as [c|] eqn:Hc; [|discriminate Hc].
  exists c. split; [reflexivity|].
  rewrite (proj2 (level_and_geographic_insight_agree abc_frame c no_results Hc)).
  injection Hc as <-. reflexivity.
Defined.



















Lemma calculate_concentration_states (df : DataFrame) (c : concentration) :
  well_formed df = true ->
  calculate_concentration df = Some c ->
  exists state,
    resolved_state_column df = Some state /\
    GeographicAnalysis.num_states c = distinct_values state.
Proof.
  intros Hwf. unfold calculate_concentration, resolved_state_column.
  destruct (_find_state_column df) as [sc|]; [|discriminate].
  destruct (_find_enrollment_column df) as [ec|]; [|discriminate].
  destruct (get_col sc (cols df)) as [state|] eqn:Hs; [|discriminate].
  destruct (get_col ec (cols df)) as [enrol|] eqn:He; [|discriminate].
  unfold concentration_body.
  destruct (groupby_col_sum state enrol) as [sd|] eqn:Hg; [|discriminate].
  cbn [bind]. destruct (gini_of (List.map snd (shares_of sd))) as [g|]; [|discriminate].
  cbn. intros H. injection H as <-. exists state. split; [reflexivity|]. cbn.
  apply (groupby_col_sum_length state enrol sd); [|exact Hg].
  now rewrite (get_col_len _ _ _ _ Hwf Hs), (get_col_len _ _ _ _ Hwf He).
Qed.

Lemma state_coverage_card (r : results) (g : geographic) (n : Z) :
  Metrics.num_states g = Some n ->
  get (generate_state_coverage_insight (with_geographic r g)) "severity"
  = Some (coverage_severity n) /\
  get (generate_state_coverage_insight (with_geographic r g)) "action"
  = Some (coverage_action n).
Proof.
  intros Hn. unfold generate_state_coverage_insight, geo, with_geographic.
  cbn [geographic_metrics or_default]. rewrite Hn. cbn [or_default]. cbv zeta.
  unfold coverage_severity, coverage_action. rewrite !Z.geb_leb.
  destruct (Z.leb 30 n); [|destruct (Z.leb 20 n)]; split; reflexivity.
Qed.

(** X14.  [num_states] is the number of distinct states present in the state
    column, and the state-coverage insight built from the result is positive
    from 30 states, info from 20, warning below; below 36 states its action
    names the [36 - n] regions that remain, from 36 on it is "Maintain
    national coverage". *)
Theorem state_coverage_counts_distinct_states
    (df : DataFrame) (c : concentration) (r : results) :
  well_formed df = true ->
  calculate_concentration df = Some c ->
  exists state,
    resolved_state_column df = Some state /\
    GeographicAnalysis.num_states c = distinct_values state /\
    let n := Z.of_nat (distinct_values state) in
    let card :=
      generate_state_coverage_insight (with_geographic r (of_concentration (Some c))) in
    get card "severity" = Some (coverage_severity n) /\
    get card "action" = Some (coverage_action n).
Proof.
  intros Hwf Hc.
  destruct (calculate_concentration_states df c Hwf Hc) as (state & Hs & Hn).
  exists state. split; [exact Hs|]. split; [exact Hn|].
  cbv zeta. rewrite <- Hn. now apply state_coverage_card.
Qed.

(** Three states: a warning, and 33 regions remain. *)
Lemma state_coverage_counts_distinct_states_witness :
  exists c,
    calculate_concentration abc_frame = Some c /\
    get (generate_state_coverage_insight
           (with_geographic no_results (of_concentration (Some c)))) "action"
    = Some "Plan expansion to reach remaining 33 regions".
Proof.
  destruct (calculate_concentration abc_frame) as [c|] eqn:Hc; [|discriminate Hc].
  exists c. split; [reflexivity|].
  destruct (state_coverage_counts_distinct_states abc_frame c no_results eq_refl Hc)
    as (state & Hs & _ & _ & Ha).
  rewrite Ha. injection Hs as <-. reflexivity.
Defined.

End GeographyFacts.

(** ** Demographics: shares, dominant bucket, attainable diversity *)

Section DemographyFacts.
Import DemographicAnalysis.






End DemographyFacts.




Section DiversityInsight.
Import DemographicAnalysis.






End DiversityInsight.

(** ** Insight generator: recommendations, repeated generation, types *)

Section GeneratorFacts.
Import Metrics InsightGenerator.

(** X17.  After [generate_recommendations] there is always at least one
    recommendation and at most ten, for any list of insights; the key
    recommendations are their first five, so between one and five. *)
Theorem recommendations_never_empty (g : generator) :
  let g' := generate_recommendations g in
  recommendations g' <> [] /\
  (List.length (recommendations g') <= 10)%nat /\
  get_key_recommendations g' = firstn 5 (recommendations g') /\
  (1 <= List.length (get_key_recommendations g') <= 5)%nat /\
  insights g' = insights g.
Proof.
  cbv zeta. unfold get_key_recommendations, generate_recommendations.
  cbn [recommendations insights].
  assert (Hne : recommendations_of (insights g) <> []).
  { unfold recommendations_of.
    destruct (List.map _ _ ++ List.map _ _)%list as [|a l] eqn:E; cbn; discriminate. }
  split; [exact Hne|]. split; [apply recommendations_length|].
  split; [reflexivity|]. split; [|reflexivity].
  split; [|apply firstn_le_length].
  destruct (recommendations_of (insights g)); [congruence | cbn; lia].
Qed.

Lemma filter_idempotent {A} (f : A -> bool) (l : list A) :
  filter f (filter f l) = filter f l.
Proof. apply filter_implied. auto. Qed.

(** X18.  [generate_all_insights] appends to the insights already held: a
    second call on the same object leaves every insight in the list twice,
    and the recommendations are recomputed from the doubled list. *)
Theorem second_generation_doubles_the_insights (r : results) :
  insights (generate_all_insights (init r))
  = (insights (init r) ++ insights (init r))%list /\
  recommendations (generate_all_insights (init r))
  = recommendations_of (insights (init r) ++ insights (init r))%list /\
  List.length (insights (generate_all_insights (init r)))
  = (2 * List.length (insights (init r)))%nat.
Proof.
  assert (H : insights (generate_all_insights (init r))
              = (insights (init r) ++ insights (init r))%list).
  { unfold init at 1. unfold generate_all_insights, generate_recommendations.
    cbn [insights results_ app]. rewrite filter_app, filter_idempotent.
    reflexivity. }
  split; [exact H|]. split.
  - unfold generate_all_insights at 1. unfold generate_recommendations.
    cbn [recommendations insights]. f_equal.
    unfold generate_all_insights, generate_recommendations in H.
    cbn [insights] in H. exact H.
  - rewrite H, length_app. lia.
Qed.

End GeneratorFacts.

Section InsightTypes.
Import Metrics InsightGenerator.

Ltac by_branches :=
  cbv zeta;
  repeat match goal with
         | |- context [if ?b then _ else _] => destruct b
         end;
  reflexivity.

Lemma kind_quality r : get (generate_quality_insight r) "type" = Some "quality".
Proof. unfold generate_quality_insight. by_branches. Qed.

Lemma kind_temporal r : get (generate_temporal_insight r) "type" = Some "temporal".
Proof. unfold generate_temporal_insight. by_branches. Qed.

Lemma kind_geographic r : get (generate_geographic_insight r) "type" = Some "geographic".
Proof. unfold generate_geographic_insight. by_branches. Qed.

Lemma kind_demographic r : get (generate_demographic_insight r) "type" = Some "demographic".
Proof. unfold generate_demographic_insight. by_branches. Qed.

Lemma kind_peak_activity r : get (generate_peak_activity_insight r) "type" = Some "temporal".
Proof. unfold generate_peak_activity_insight. by_branches. Qed.

Lemma kind_weekly_consistency r :
  get (generate_weekly_consistency_insight r) "type" = Some "temporal".
Proof. unfold generate_weekly_consistency_insight. by_branches. Qed.

Lemma kind_state_coverage r :
  get (generate_state_coverage_insight r) "type" = Some "geographic".
Proof. unfold generate_state_coverage_insight. by_branches. Qed.

Lemma kind_duplicates r : get (generate_duplicates_insight r) "type" = Some "quality".
Proof. unfold generate_duplicates_insight. by_branches. Qed.

Lemma kind_update r : get (generate_update_insight r) "type" = Some "update".
Proof. unfold generate_update_insight. by_branches. Qed.

Lemma kind_volatility r : get (generate_volatility_insight r) "type" = Some "trend".
Proof. unfold generate_volatility_insight. by_branches. Qed.

Lemma kind_capacity r : get (generate_capacity_insight r) "type" = Some "capacity".
Proof. unfold generate_capacity_insight. by_branches. Qed.

Lemma kind_gender r :
  kept (generate_gender_insight r) = [] \/
  (kept (generate_gender_insight r) = [generate_gender_insight r] /\
   get (generate_gender_insight r) "type" = Some "demographic").
Proof.
  pose proof (gender_populated r) as H.
  destruct (or_default (gender_distribution (demo r)) []) as [|first rest] eqn:E.
  - left. unfold kept. now rewrite H.
  - right. split; [unfold kept; now rewrite (populated_truthy _ H)|].
    unfold generate_gender_insight. rewrite E. by_branches.
Qed.

Lemma kind_biometric r :
  kept (generate_biometric_insight r) = [] \/
  (kept (generate_biometric_insight r) = [generate_biometric_insight r] /\
   get (generate_biometric_insight r) "type" = Some "biometric").
Proof.
  pose proof (biometric_populated r) as H.
  destruct (or_default (biometric_metrics r) []) as [|first rest] eqn:E.
  - left. unfold kept. now rewrite H.
  - right. split; [unfold kept; now rewrite (populated_truthy _ H)|].
    unfold generate_biometric_insight. rewrite E. by_branches.
Qed.

Lemma by_type_keep (i : insight) (l : list insight) (k t : string) :
  get i "type" = Some k -> String.eqb k t = true ->
  filter (fun i => match get i "type" with
                   | Some t' => String.eqb t' t
                   | None => false
                   end) (i :: l)
  = i :: filter (fun i => match get i "type" with
                          | Some t' => String.eqb t' t
                          | None => false
                          end) l.
Proof. intros H E. cbn [filter]. now rewrite H, E. Qed.

Lemma by_type_drop (i : insight) (l : list insight) (k t : string) :
  get i "type" = Some k -> String.eqb k t = false ->
  filter (fun i => match get i "type" with
                   | Some t' => String.eqb t' t
                   | None => false
                   end) (i :: l)
  = filter (fun i => match get i "type" with
                     | Some t' => String.eqb t' t
                     | None => false
                     end) l.
Proof. intros H E. cbn [filter]. now rewrite H, E. Qed.

Ltac by_type :=
  repeat first
    [ erewrite by_type_keep; [| eassumption | reflexivity]
    | erewrite by_type_drop; [| eassumption | reflexivity] ];
  reflexivity.

(** X19.  [get_insights_by_type] on a freshly built generator returns, for
    each of the eight types, exactly the insights of the generators that
    carry it, in the order they were appended; the gender insight is filed
    under "demographic"; any other type gives the empty list. *)
Theorem insights_by_type (r : results) :
  let g := init r in
  get_insights_by_type g "temporal"
  = [generate_temporal_insight r; generate_peak_activity_insight r;
     generate_weekly_consistency_insight r] /\
  get_insights_by_type g "geographic"
  = [generate_geographic_insight r; generate_state_coverage_insight r] /\
  get_insights_by_type g "demographic"
  = generate_demographic_insight r :: kept (generate_gender_insight r) /\
  get_insights_by_type g "quality"
  = [generate_quality_insight r; generate_duplicates_insight r] /\
  get_insights_by_type g "biometric" = kept (generate_biometric_insight r) /\
  get_insights_by_type g "update" = [generate_update_insight r] /\
  get_insights_by_type g "trend" = [generate_volatility_insight r] /\
  get_insights_by_type g "capacity" = [generate_capacity_insight r] /\
  forall t, ~ In t insight_types -> get_insights_by_type g t = [].
Proof.
  cbv zeta. unfold get_insights_by_type. rewrite insights_of_init.
  pose proof (kind_quality r) as H1. pose proof (kind_temporal r) as H2.
  pose proof (kind_geographic r) as H3. pose proof (kind_demographic r) as H4.
  pose proof (kind_peak_activity r) as H5.
  pose proof (kind_weekly_consistency r) as H6.
  pose proof (kind_state_coverage r) as H7. pose proof (kind_duplicates r) as H8.
  pose proof (kind_update r) as H9. pose proof (kind_volatility r) as H10.
  pose proof (kind_capacity r) as H11.
  pose proof (kind_gender r) as Hg. pose proof (kind_biometric r) as Hb.
  revert H1 H2 H3 H4 H5 H6 H7 H8 H9 H10 H11 Hg Hb.
  generalize (generate_quality_insight r) (generate_temporal_insight r)
    (generate_geographic_insight r) (generate_demographic_insight r)
    (generate_peak_activity_insight r) (generate_weekly_consistency_insight r)
    (generate_state_coverage_insight r) (generate_duplicates_insight r)
    (generate_update_insight r) (generate_volatility_insight r)
    (generate_capacity_insight r) (generate_gender_insight r)
    (generate_biometric_insight r).
  intros i1 i2 i3 i4 i5 i6 i7 i8 i9 i10 i11 ig ib
    H1 H2 H3 H4 H5 H6 H7 H8 H9 H10 H11 Hg Hb.
  assert (Ht : forall t, ~ In t insight_types ->
            forall k, In k insight_types -> String.eqb k t = false).
  { intros t Hn k Hk. apply String.eqb_neq. intros ->. now apply Hn. }
  destruct Hg as [-> | [-> Hg]]; destruct Hb as [-> | [-> Hb]];
    cbn [app];
    (do 8 (split; [by_type|]));
    intros t Hn;
    repeat (erewrite by_type_drop;
            [| eassumption | apply (Ht t Hn); unfold insight_types; cbn; tauto]);
    reflexivity.
Qed.

End InsightTypes.
(** ** Gender balance *)

Section GenderBalance.
Import Metrics InsightGenerator.

Lemma insert_desc_perm (x : string * Z) (l : list (string * Z)) :
  Permutation (insert_desc x l) (x :: l).
Proof.
  induction l as [|y l IH]; [reflexivity|]. cbn [insert_desc].
  destruct (Z.ltb (snd x) (snd y)); [|reflexivity].
  rewrite IH. apply perm_swap.
Qed.

Lemma sorted_desc_perm (l : list (string * Z)) : Permutation (sorted_desc l) l.
Proof.
  induction l as [|x l IH]; [reflexivity|].
  unfold sorted_desc. cbn [fold_right]. fold (sorted_desc l).
  rewrite insert_desc_perm. now constructor.
Qed.

Lemma insert_desc_sorted (x : string * Z) (l : list (string * Z)) :
  StronglySorted (fun a b => (snd b <= snd a)%Z) l ->
  StronglySorted (fun a b => (snd b <= snd a)%Z) (insert_desc x l).
Proof.
  induction l as [|y l IH]; intros Hs; cbn [insert_desc].
  - repeat constructor.
  - inversion Hs as [|? ? Hl Hy]. clear Hs.
    destruct (Z.ltb_spec (snd x) (snd y)) as [Hlt|Hge].
    + constructor; [now apply IH|].
      apply (Permutation_Forall (Permutation_sym (insert_desc_perm x l))).
      constructor; [lia | exact Hy].
    + constructor; [now constructor|].
      constructor; [exact Hge|].
      eapply Forall_impl; [|exact Hy]. cbv beta. intros z Hz. lia.
Qed.

Lemma sorted_desc_sorted (l : list (string * Z)) :
  StronglySorted (fun a b => (snd b <= snd a)%Z) (sorted_desc l).
Proof.
  induction l as [|x l IH]; [constructor|].
  unfold sorted_desc. cbn [fold_right]. now apply insert_desc_sorted.
Qed.

Lemma sorted_last_least (l : list (string * Z)) (d : string * Z) :
  StronglySorted (fun a b => (snd b <= snd a)%Z) l -> l <> [] ->
  In (last l d) l /\ Forall (fun a => (snd (last l d) <= snd a)%Z) l.
Proof.
  induction l as [|x l IH]; intros Hs Hne; [congruence|].
  inversion Hs as [|? ? Hl Hx]. clear Hs.
  destruct l as [|y l].
  - cbn. split; [now left|]. constructor; [lia|constructor].
  - destruct (IH Hl ltac:(discriminate)) as [Hin Hall].
    change (last (x :: y :: l) d) with (last (y :: l) d).
    split; [now right|].
    constructor; [|exact Hall].
    rewrite Forall_forall in Hx. now apply Hx.
Qed.

(** The first and the last entry of the sorted distribution carry the
    largest and the smallest count. *)
Lemma sorted_desc_extremes (first : string * Z) (rest : list (string * Z)) :
  let l := first :: rest in
  In (hd first (sorted_desc l)) l /\
  In (last (sorted_desc l) first) l /\
  forall a, In a l ->
    (snd (last (sorted_desc l) first) <= snd a <= snd (hd first (sorted_desc l)))%Z.
Proof.
  cbv zeta.
  pose proof (sorted_desc_perm (first :: rest)) as Hp.
  pose proof (sorted_desc_sorted (first :: rest)) as Hs.
  destruct (sorted_desc (first :: rest)) as [|h t] eqn:E.
  { apply Permutation_nil in Hp. discriminate. }
  destruct (sorted_last_least (h :: t) first Hs ltac:(discriminate)) as [Hin Hall].
  cbn [hd]. split; [|split].
  - apply (Permutation_in _ Hp). now left.
  - apply (Permutation_in _ Hp). exact Hin.
  - intros a Ha. apply (Permutation_in _ (Permutation_sym Hp)) in Ha.
    split.
    + rewrite Forall_forall in Hall. now apply Hall.
    + inversion Hs as [|? ? _ Hh]. destruct Ha as [<-|Ha]; [lia|].
      rewrite Forall_forall in Hh. now apply Hh.
Qed.

Lemma ratio_lt (M m a b : Z) :
  (0 < m)%Z -> (0 < b)%Z ->
  Qltb (inject_Z M / inject_Z m) (a # Z.to_pos b) = Z.ltb (b * M) (a * m).
Proof.
  intros Hm Hb.
  destruct (Z.ltb_spec (b * M) (a * m)) as [H|H].
  - apply Qltb_true. apply Qlt_shift_div_r; [unfold Qlt; cbn; lia|].
    unfold Qlt, Qmult, inject_Z. cbn [Qnum Qden].
    rewrite Pos.mul_1_r, Z2Pos.id by lia. nia.
  - apply Qltb_false. apply Qle_shift_div_l; [unfold Qlt; cbn; lia|].
    unfold Qle, Qmult, inject_Z. cbn [Qnum Qden].
    rewrite Pos.mul_1_r, Z2Pos.id by lia. nia.
Qed.

(** X20.  The rating of the gender insight depends only on the largest count
    [M] and the smallest count [m] of the distribution: "positive" when
    [m <= 0] (the ratio is then taken as 0) or [M / m < 1.2], "info" when
    [1.2 <= M / m < 1.5], "warning" otherwise.  A distribution with a single
    gender is therefore always rated "positive". *)
Theorem gender_rating_by_extreme_counts (r : results)
    (dist : list (string * Z)) (M m : Z) :
  gender_distribution (demo r) = Some dist ->
  In M (List.map snd dist) ->
  In m (List.map snd dist) ->
  (forall c, In c (List.map snd dist) -> (m <= c <= M)%Z) ->
  get (generate_gender_insight r) "severity" = Some (gender_severity M m) /\
  (List.length dist = 1%nat ->
   get (generate_gender_insight r) "severity" = Some "positive").
Proof.
  intros Hd HM Hm Hall.
  assert (Hsev : get (generate_gender_insight r) "severity"
                 = Some (gender_severity M m)).
  { unfold generate_gender_insight. rewrite Hd. cbn [or_default].
    destruct dist as [|first rest]; [contradiction|].
    destruct (sorted_desc_extremes first rest) as (Hhd & Hlast & Hext).
    cbv zeta in Hhd, Hlast, Hext. cbv zeta.
    set (mx := hd first (sorted_desc (first :: rest))) in *.
    set (mn := last (sorted_desc (first :: rest)) first) in *.
    assert (EM : snd mx = M).
    { apply in_map_iff in HM. destruct HM as (a & <- & Ha).
      pose proof (Hext a Ha). pose proof (Hall (snd mx) (in_map snd _ _ Hhd)). lia. }
    assert (Em : snd mn = m).
    { apply in_map_iff in Hm. destruct Hm as (a & <- & Ha).
      pose proof (Hext a Ha). pose proof (Hall (snd mn) (in_map snd _ _ Hlast)). lia. }
    rewrite EM, Em. unfold gender_severity.
    destruct (Z.ltb_spec 0 m) as [Hpos|Hnp].
    - destruct (Z.leb_spec m 0) as [?|_]; [lia|].
      cbn [fltb].
      change (12 # 10) with (12 # Z.to_pos 10).
      change (15 # 10) with (15 # Z.to_pos 10).
      rewrite !ratio_lt by lia.
      replace (Z.ltb (10 * M) (12 * m)) with (Z.ltb (5 * M) (6 * m))
        by (destruct (Z.ltb_spec (5 * M) (6 * m)), (Z.ltb_spec (10 * M) (12 * m));
            try reflexivity; lia).
      replace (Z.ltb (10 * M) (15 * m)) with (Z.ltb (2 * M) (3 * m))
        by (destruct (Z.ltb_spec (2 * M) (3 * m)), (Z.ltb_spec (10 * M) (15 * m));
            try reflexivity; lia).
      destruct (Z.ltb (5 * M) (6 * m)); [reflexivity|].
      destruct (Z.ltb (2 * M) (3 * m)); reflexivity.
    - destruct (Z.leb_spec m 0) as [_|?]; [|lia]. reflexivity. }
  split; [exact Hsev|].
  intros Hlen. rewrite Hsev.
  destruct dist as [|[k c] [|? ?]]; try discriminate.
  cbn in HM, Hm. destruct HM as [<-|[]]. destruct Hm as [<-|[]].
  unfold gender_severity.
  destruct (Z.leb_spec c 0) as [_|Hc]; [reflexivity|].
  destruct (Z.ltb_spec (5 * c) (6 * c)) as [_|H]; [reflexivity|lia].
Qed.

(** Six to five: the ratio is exactly 1.2, rated "info". *)
Lemma gender_rating_by_extreme_counts_witness :
  get (generate_gender_insight
         (with_demographic no_results
            {| age_diversity_index := None; dominant_age_percentage := None;
               dominant_age := None;
               gender_distribution := Some [("Male", 6%Z); ("Female", 5%Z)] |}))
      "severity" = Some "info".
Proof.
  refine (proj1 (gender_rating_by_extreme_counts
                   (with_demographic no_results
                      {| age_diversity_index := None; dominant_age_percentage := None;
                         dominant_age := None;
                         gender_distribution := Some [("Male", 6%Z); ("Female", 5%Z)] |})
                   [("Male", 6%Z); ("Female", 5%Z)] 6 5 eq_refl _ _ _)).
  - cbn. tauto.
  - cbn. tauto.
  - cbn. intros c [<-|[<-|[]]]; lia.
Defined.

End GenderBalance.
(** ** The metric mapping as the dashboard compiles it *)

Section DashboardPipeline.
Import Metrics InsightGenerator.

Lemma calculate_growth_rate_weekly (df : DataFrame) :
  AdvancedTemporalAnalysis.weekly_stats
    (AdvancedTemporalAnalysis.calculate_growth_rate df) = None.
Proof.
  unfold AdvancedTemporalAnalysis.calculate_growth_rate.
  destruct (AdvancedTemporalAnalysis._find_date_column df) as [dc|]; [|reflexivity].
  destruct (AdvancedTemporalAnalysis._find_enrollment_column df) as [ec|];
    [|reflexivity].
  unfold AdvancedTemporalAnalysis.growth_body.
  destruct (get_col dc (cols df)) as [dates|]; [|reflexivity].
  destruct (get_col ec (cols df)) as [[vs|vs]|]; [| |reflexivity].
  - destruct (groupby_col_sum dates (IntCol vs)) as [g|]; [|reflexivity].
    cbn [bind]. destruct (String.eqb dc ec); [reflexivity|].
    destruct g as [|a [|b g]]; reflexivity.
  - destruct (groupby_col_sum dates (IntCol (List.map (fun _ => None) vs))) as [g|];
      [|reflexivity].
    cbn [bind]. destruct (String.eqb dc ec); [reflexivity|].
    destruct g as [|a [|b g]]; reflexivity.
Qed.

Lemma biometric_insight_empty (r : results) :
  generate_biometric_insight r = [] <-> or_default (biometric_metrics r) [] = [].
Proof.
  pose proof (biometric_populated r) as H.
  destruct (or_default (biometric_metrics r) []) as [|e l].
  - now split.
  - split; [|discriminate]. intros E. rewrite E in H.
    destruct H as (? & ? & ? & ? & ? & ? & H & _). discriminate H.
Qed.

(** X21.  With the metric mapping compiled as the dashboard does, the gender
    insight is never produced (the demographic family carries no gender
    distribution), the weekly insight is always the same "positive" card
    with an average of 0 (the temporal family carries no weekly figures),
    and the list holds eleven insights, or twelve when the biometric
    coverage is not empty. *)
Theorem dashboard_insight_list (filtered_df : DataFrame)
    (bio_df demo_df : option DataFrame) (iss : issues) (tr : trend) :
  let r := Dashboard.analysis_results filtered_df bio_df demo_df iss tr in
  let coverage :=
    BiometricAnalysis.analyze_biometric_coverage
      (match bio_df with Some b => b | None => filtered_df end) in
  generate_gender_insight r = [] /\
  get (generate_weekly_consistency_insight r) "severity" = Some "positive" /\
  get (generate_weekly_consistency_insight r) "message"
  = Some ("Average weekly enrollment: 0 registrations. "
          ++ "Status: Highly Consistent - Predictable patterns. "
          ++ "This tells how predictable the enrollment patterns are.") /\
  (generate_biometric_insight r = [] <-> coverage = []) /\
  List.length (insights (init r))
  = match coverage with [] => 11%nat | _ :: _ => 12%nat end.
Proof.
  cbv zeta.
  set (r := Dashboard.analysis_results filtered_df bio_df demo_df iss tr).
  assert (Hg : generate_gender_insight r = []).
  { unfold generate_gender_insight, demo, r, Dashboard.analysis_results.
    cbn [demographic_metrics or_default].
    now destruct (DemographicAnalysis.analyze_age_distribution filtered_df). }
  assert (Hw : generate_weekly_consistency_insight r
               = make "WEEKLY PATTERNS - Predictability Check"
                   ("Average weekly enrollment: 0 registrations. "
                    ++ "Status: Highly Consistent - Predictable patterns. "
                    ++ "This tells how predictable the enrollment patterns are.")
                   "Low variation means you can forecast demand accurately. High variation requires flexible resources."
                   "Plan staffing and resources based on consistency level"
                   "positive" "temporal").
  { unfold generate_weekly_consistency_insight, temporal, r,
      Dashboard.analysis_results.
    cbn [temporal_metrics or_default].
    rewrite calculate_growth_rate_weekly. reflexivity. }
  assert (Hb : generate_biometric_insight r = [] <->
               BiometricAnalysis.analyze_biometric_coverage
                 (match bio_df with Some b => b | None => filtered_df end) = []).
  { rewrite biometric_insight_empty.
    unfold r, Dashboard.analysis_results. cbn [biometric_metrics or_default].
    unfold Compile.of_coverage.
    destruct (BiometricAnalysis.analyze_biometric_coverage _); cbn; split;
      congruence. }
  split; [exact Hg|]. split; [now rewrite Hw|]. split; [now rewrite Hw|].
  split; [exact Hb|].
  rewrite insights_of_init, Hg.
  pose proof (biometric_populated r) as Hp.
  destruct (BiometricAnalysis.analyze_biometric_coverage _) as [|c cs] eqn:Ec.
  - rewrite (proj2 Hb eq_refl). reflexivity.
  - unfold kept at 2.
    destruct (generate_biometric_insight r) eqn:Eb.
    + discriminate (proj1 Hb eq_refl).
    + reflexivity.
Qed.

(** X22.  The dashboard hands over no record total, so the duplicates insight
    divides by the default of 1: a non-negative duplicate count is rated
    "positive" when it is 0 and "warning" otherwise, never "info". *)
Theorem duplicates_rating_in_dashboard (filtered_df : DataFrame)
    (bio_df demo_df : option DataFrame) (iss : issues) (tr : trend) :
  (0 <= or_default (duplicate_records iss) 0%Z)%Z ->
  get (generate_duplicates_insight
         (Dashboard.analysis_results filtered_df bio_df demo_df iss tr))
      "severity"
  = Some (if Z.eqb (or_default (duplicate_records iss) 0%Z) 0%Z
          then "positive" else "warning").
Proof.
  intros Hd.
  unfold generate_duplicates_insight, issues_, quality_,
    Dashboard.analysis_results, Compile.of_completeness.
  cbn [quality_metrics quality_issues total_records or_default].
  set (d := or_default (duplicate_records iss) 0%Z) in *.
  cbn [Z.ltb Z.compare].
  destruct (Z.eqb_spec d 0) as [E|N]; [reflexivity|].
  assert (Hbig : (Fin (inject_Z d / inject_Z 1 * 100) <? Fin (5 # 10))%F = false).
  { cbn [fltb]. apply Qltb_false.
    unfold Qle, Qdiv, Qmult, Qinv, inject_Z. cbn [Qnum Qden Z.mul Pos.mul].
    lia. }
  rewrite Hbig. reflexivity.
Qed.

(** Three duplicates are shown as 300% and rated "warning". *)
Lemma duplicates_rating_in_dashboard_witness :
  get (generate_duplicates_insight
         (Dashboard.analysis_results (mkDF 0 []) None None
            {| total_issues := Some 3%Z; duplicate_records := Some 3%Z |}
            {| volatility_level := None |}))
      "severity" = Some "warning"
  /\ get (generate_duplicates_insight
         (Dashboard.analysis_results (mkDF 0 []) None None
            {| total_issues := Some 3%Z; duplicate_records := Some 3%Z |}
            {| volatility_level := None |}))
      "message"
     = Some ("Found 3 duplicate records (300.00%). "
             ++ "Status: Concerning - Significant duplication. This affects data accuracy.").
Proof.
  split; [|reflexivity].
  apply (duplicates_rating_in_dashboard (mkDF 0 []) None None
           {| total_issues := Some 3%Z; duplicate_records := Some 3%Z |}
           {| volatility_level := None |}).
  cbn. lia.
Defined.

End DashboardPipeline.
(** ** Update ratios and biometric coverage *)

Section UpdateAndBiometric.
Import Metrics InsightGenerator.

Lemma sum_ratio_gt (n s a b : Z) :
  (0 < n)%Z -> (0 < b)%Z ->
  Qltb (a # Z.to_pos b) (inject_Z s / inject_Z n) = Z.ltb (a * n) (b * s).
Proof.
  intros Hn Hb.
  destruct (Z.ltb_spec (a * n) (b * s)) as [H|H].
  - apply Qltb_true. apply Qlt_shift_div_l; [unfold Qlt; cbn; lia|].
    unfold Qlt, Qmult, inject_Z. cbn [Qnum Qden].
    rewrite Pos.mul_1_r, Z2Pos.id by lia. nia.
  - apply Qltb_false. apply Qle_shift_div_r; [unfold Qlt; cbn; lia|].
    unfold Qle, Qmult, inject_Z. cbn [Qnum Qden].
    rewrite Pos.mul_1_r, Z2Pos.id by lia. nia.
Qed.

(** X23.  [calculate_update_ratios] followed by the update insight: with [n]
    enrolment rows, [b] biometric update rows and [d] demographic update
    rows, the insight is "positive" when [b + d] exceeds half of [n], "info"
    when it exceeds a fifth of [n], and "warning" otherwise; an enrolment
    frame without rows is always "warning".  Each percentage is 100 times
    the ratio beside it. *)
Theorem update_rating_by_row_counts (enrol_df : DataFrame)
    (bio_df demo_df : option DataFrame) (r : results) :
  let u := UpdateAnalysis.calculate_update_ratios enrol_df bio_df demo_df in
  get (generate_update_insight (with_update r (Compile.of_update_ratios u)))
      "severity"
  = Some (update_severity (Z.of_nat (nrows enrol_df))
            (UpdateAnalysis.len_or_zero bio_df)
            (UpdateAnalysis.len_or_zero demo_df)) /\
  UpdateAnalysis.biometric_update_percentage u
  =f= (UpdateAnalysis.biometric_to_enrol_ratio u * Fin 100)%F /\
  UpdateAnalysis.demographic_update_percentage u
  =f= (UpdateAnalysis.demographic_to_enrol_ratio u * Fin 100)%F /\
  (nrows enrol_df = 0%nat ->
   get (generate_update_insight (with_update r (Compile.of_update_ratios u)))
       "severity" = Some "warning").
Proof.
  cbv zeta.
  set (n := Z.of_nat (nrows enrol_df)).
  set (b := UpdateAnalysis.len_or_zero bio_df).
  set (d := UpdateAnalysis.len_or_zero demo_df).
  assert (Hs : get (generate_update_insight
                      (with_update r
                         (Compile.of_update_ratios
                            (UpdateAnalysis.calculate_update_ratios
                               enrol_df bio_df demo_df)))) "severity"
               = Some (update_severity n b d)).
  { unfold generate_update_insight, with_update, Compile.of_update_ratios,
      UpdateAnalysis.calculate_update_ratios.
    cbn [update_metrics or_default biometric_to_enrol_ratio
         demographic_to_enrol_ratio UpdateAnalysis.biometric_to_enrol_ratio
         UpdateAnalysis.demographic_to_enrol_ratio].
    fold n b d. unfold update_severity.
    destruct (Z.ltb_spec 0 n) as [Hn|Hn].
    - destruct (Z.leb_spec n 0) as [?|_]; [lia|].
      cbn [fadd fgtb fltb].
      assert (E : forall q, Qltb q (inject_Z b / inject_Z n + inject_Z d / inject_Z n)
                            = Qltb q (inject_Z (b + d) / inject_Z n)).
      { intros q. assert (Hq : inject_Z b / inject_Z n + inject_Z d / inject_Z n
                               == inject_Z (b + d) / inject_Z n).
        { rewrite inject_Z_plus. field. unfold Qeq. cbn. lia. }
        destruct (Qltb q (inject_Z (b + d) / inject_Z n)) eqn:E1.
        - apply Qltb_true. rewrite Hq. now apply Qltb_true.
        - apply Qltb_false. rewrite Hq. now apply Qltb_false. }
      rewrite !E.
      change (5 # 10) with (5 # Z.to_pos 10).
      change (2 # 10) with (2 # Z.to_pos 10).
      rewrite !sum_ratio_gt by lia.
      replace (Z.ltb (5 * n) (10 * (b + d))) with (Z.ltb n (2 * (b + d)))
        by (destruct (Z.ltb_spec n (2 * (b + d))),
              (Z.ltb_spec (5 * n) (10 * (b + d))); try reflexivity; lia).
      replace (Z.ltb (2 * n) (10 * (b + d))) with (Z.ltb n (5 * (b + d)))
        by (destruct (Z.ltb_spec n (5 * (b + d))),
              (Z.ltb_spec (2 * n) (10 * (b + d))); try reflexivity; lia).
      destruct (Z.ltb n (2 * (b + d))); [reflexivity|].
      destruct (Z.ltb n (5 * (b + d))); reflexivity.
    - destruct (Z.leb_spec n 0) as [_|?]; [|lia]. reflexivity. }
  split; [exact Hs|].
  split; [|split].
  - unfold UpdateAnalysis.calculate_update_ratios.
    cbn [UpdateAnalysis.biometric_update_percentage
         UpdateAnalysis.biometric_to_enrol_ratio].
    destruct (Z.ltb 0 (Z.of_nat (nrows enrol_df))); cbn; reflexivity.
  - unfold UpdateAnalysis.calculate_update_ratios.
    cbn [UpdateAnalysis.demographic_update_percentage
         UpdateAnalysis.demographic_to_enrol_ratio].
    destruct (Z.ltb 0 (Z.of_nat (nrows enrol_df))); cbn; reflexivity.
  - intros H0. rewrite Hs. unfold update_severity, n. rewrite H0. reflexivity.
Qed.

End UpdateAndBiometric.

Section BiometricCoverage.
Import Metrics InsightGenerator BiometricAnalysis.

Lemma coverage_of_spec (df : DataFrame) (col : string) (c : coverage) :
  coverage_of df col = Returns c ->
  exists column,
    get_col col (cols df) = Some column /\
    count c = column_sum column /\
    percentage c = (of_Z (count c) / of_nat (nrows df) * Fin 100)%F /\
    (nrows df = 0%nat -> exists cells, column = IntCol cells).
Proof.
  unfold coverage_of.
  destruct (get_col col (cols df)) as [[cells|cells]|]; [| |discriminate].
  - intros H. injection H as <-. exists (IntCol cells). cbn.
    repeat split. intros _. now exists cells.
  - destruct (forallb _ cells); [|discriminate]. cbn [andb].
    destruct (Nat.eqb_spec (nrows df) 0) as [E|N]; [discriminate|].
    cbn [negb]. intros H. injection H as <-. exists (ObjCol cells). cbn.
    repeat split. intros E. contradiction.
Qed.

Lemma coverage_stats_spec (df : DataFrame) (bio_cols : list string)
    (stats : list (string * coverage)) :
  coverage_stats df bio_cols = Returns stats ->
  List.map fst stats = bio_cols /\
  Forall (fun kc => coverage_of df (fst kc) = Returns (snd kc)) stats.
Proof.
  revert stats. induction bio_cols as [|col rest IH]; intros stats; cbn [coverage_stats].
  - intros H. injection H as <-. split; [reflexivity|constructor].
  - destruct (coverage_of df col) as [c|] eqn:Ec; [|discriminate].
    cbn [bind]. destruct (coverage_stats df rest) as [cs|]; [|discriminate].
    cbn [bind]. intros H. injection H as <-.
    destruct (IH cs eq_refl) as [Hn Ha].
    split; [cbn; now rewrite Hn|]. constructor; [exact Ec|exact Ha].
Qed.

Lemma analyze_biometric_coverage_shape (df : DataFrame) :
  analyze_biometric_coverage df = [] \/
  coverage_stats df (bio_age_cols df) = Returns (analyze_biometric_coverage df).
Proof.
  unfold analyze_biometric_coverage.
  destruct (bio_age_cols df) as [|c cs]; [now left|].
  destruct (DemographicAnalysis.has_dup (c :: cs)); [now left|].
  destruct (coverage_stats df (c :: cs)); [now right|now left].
Qed.


Lemma fsum_nan_from (l : list pyfloat) : fold_left fadd l NaN = NaN.
Proof. induction l as [|x l IH]; [reflexivity|]. cbn. exact IH. Qed.

Lemma np_mean_all_nan (l : list pyfloat) :
  l <> [] -> Forall (fun x => x = NaN) l -> np_mean l = NaN.
Proof.
  intros Hne Hall. destruct l as [|x l]; [congruence|].
  inversion Hall as [|? ? Hx Hl]. subst x.
  unfold np_mean, fsum. cbn [fold_left fadd]. rewrite fsum_nan_from. reflexivity.
Qed.

(** X25.  On a well-formed frame without rows whose "bioage" columns can be
    summed, every percentage is 0 / 0, which is NaN and not an error: the
    biometric insight is then the "warning" card reading "nan%". *)
Theorem biometric_card_on_a_frame_without_rows (df : DataFrame) (r : results) :
  well_formed df = true ->
  nrows df = 0%nat ->
  analyze_biometric_coverage df <> [] ->
  let stats := analyze_biometric_coverage df in
  let i := generate_biometric_insight (with_biometric r (Compile.of_coverage stats)) in
  Forall (fun kc => percentage (snd kc) = NaN /\ count (snd kc) = 0%Z) stats /\
  get i "severity" = Some "warning" /\
  get i "message"
  = Some ("Biometric enrollment coverage is nan%. "
          ++ "Status: Low - Needs improvement. "
          ++ "This shows fingerprint data collection rates.").
Proof.
  intros Hwf H0 Hne. cbv zeta.
  assert (Hall : Forall (fun kc => percentage (snd kc) = NaN /\ count (snd kc) = 0%Z)
                   (analyze_biometric_coverage df)).
  { destruct (analyze_biometric_coverage_shape df) as [E|E]; [congruence|].
    apply coverage_stats_spec in E. destruct E as [_ Ha].
    eapply Forall_impl; [|exact Ha]. cbv beta. intros [col c] Hc. cbn in Hc |- *.
    destruct (coverage_of_spec _ _ _ Hc) as (column & H1 & H2 & H3 & H4).
    destruct (H4 H0) as [cells ->].
    pose proof (get_col_len _ _ _ _ Hwf H1) as Hl. cbn in Hl. rewrite H0 in Hl.
    destruct cells; [|discriminate].
    cbn in H2. rewrite H3, H2, H0. split; reflexivity. }
  split; [exact Hall|].
  unfold generate_biometric_insight, with_biometric.
  cbn [biometric_metrics or_default].
  destruct (analyze_biometric_coverage df) as [|[col c] stats]; [congruence|].
  assert (Hp : bio_percentages (Compile.of_coverage ((col, c) :: stats))
               = List.map (fun kc => percentage (snd kc)) ((col, c) :: stats)).
  { generalize ((col, c) :: stats). intros l.
    induction l as [|[k v] l IH]; [reflexivity|]. cbn. now rewrite <- IH. }
  assert (Hm : np_mean (bio_percentages (Compile.of_coverage ((col, c) :: stats)))
               = NaN).
  { rewrite Hp. apply np_mean_all_nan; [discriminate|].
    apply Forall_map. eapply Forall_impl; [|exact Hall]. cbv beta. tauto. }
  change (Compile.of_coverage ((col, c) :: stats))
    with ((col, BioDict (Some (percentage c))) :: Compile.of_coverage stats) in *.
  cbv beta iota zeta.
  change (bio_percentages ((col, BioDict (Some (percentage c)))
                           :: Compile.of_coverage stats))
    with (percentage c :: bio_percentages (Compile.of_coverage stats)) in *.
  cbv beta iota.
  rewrite Hm. split; reflexivity.
Qed.

(** A frame without rows and one numeric "bioage" column. *)
Lemma biometric_card_on_a_frame_without_rows_witness :
  get (generate_biometric_insight
         (with_biometric no_results
            (Compile.of_coverage
               (analyze_biometric_coverage (mkDF 0 [("bioage_5_17", IntCol [])])))))
      "severity" = Some "warning".
Proof.
  apply (biometric_card_on_a_frame_without_rows
           (mkDF 0 [("bioage_5_17", IntCol [])]) no_results).
  - reflexivity.
  - reflexivity.
  - cbn. discriminate.
Defined.

End BiometricCoverage.
(** ** Insight cards and progress bars *)

Section Cards.
Import Metrics InsightGenerator.

Lemma init_insights_populated (r : results) : Forall populated (insights (init r)).
Proof.
  rewrite insights_of_init.
  repeat (apply Forall_app; split);
    repeat (apply Forall_cons);
    try apply Forall_nil;
    first [ apply quality_populated | apply temporal_populated
          | apply geographic_populated | apply demographic_populated
          | apply peak_activity_populated | apply weekly_consistency_populated
          | apply state_coverage_populated | apply kept_populated_gender
          | apply duplicates_populated | apply kept_populated_biometric
          | apply update_populated | apply volatility_populated
          | apply capacity_populated ].
Qed.

(** X26.  The palette of an insight card is looked up under the names
    "success", "warning", "error" and "info", while insights are rated
    "positive", "info", "warning" or "critical": every card of a generated
    insight is drawn with the warning palette when its severity is "warning"
    and with the info palette otherwise, so "critical" and "positive" cards
    are not told apart from "info" ones and the success and error palettes
    are never used. *)
Theorem insight_cards_use_two_palettes (r : results) (i : insight) :
  In i (insights (init r)) ->
  (Dashboard.card_severity i = "warning" ->
   Styling.card_color (Dashboard.card_severity i) = Styling.warning) /\
  (Dashboard.card_severity i <> "warning" ->
   Styling.card_color (Dashboard.card_severity i) = Styling.info) /\
  Styling.card_color (Dashboard.card_severity i) <> Styling.success /\
  Styling.card_color (Dashboard.card_severity i) <> Styling.error /\
  Styling.card_color "critical" = Styling.card_color "positive".
Proof.
  intros Hin.
  pose proof (init_insights_populated r) as Hall.
  rewrite Forall_forall in Hall. specialize (Hall i Hin).
  destruct Hall as (t & m & d & a & s & k & -> & Hs & _).
  unfold Dashboard.card_severity.
  change (get (make t m d a s k) "severity") with (Some s).
  cbn [or_default].
  unfold severities in Hs. cbn [In] in Hs.
  destruct Hs as [<-|[<-|[<-|[<-|[]]]]];
    (split; [|split; [|split; [|split]]]);
    try reflexivity; try discriminate; try congruence.
Qed.

(** The quality card of an empty metric mapping is critical, and drawn
    with the info palette. *)
Lemma insight_cards_use_two_palettes_witness :
  Dashboard.card_severity (generate_quality_insight no_results) = "critical" /\
  Styling.card_color (Dashboard.card_severity (generate_quality_insight no_results))
  = Styling.info.
Proof.
  split; [reflexivity|].
  destruct (insight_cards_use_two_palettes no_results
              (generate_quality_insight no_results)) as (_ & H & _).
  - rewrite insights_of_init. now left.
  - apply H. discriminate.
Defined.

(** X27.  The width of a progress bar is never above 100; it is 100 exactly
    when the value reaches a positive maximum, 0 when the maximum is not
    positive, and it is not clamped from below: a negative value on a
    positive maximum gives a negative width. *)
Theorem progress_percentage_is_capped (value max_value : Q) :
  Styling.progress_percentage value max_value <= 100 /\
  (Styling.progress_percentage value max_value == 100
   <-> 0 < max_value /\ max_value <= value) /\
  (max_value <= 0 -> Styling.progress_percentage value max_value == 0) /\
  (0 < max_value -> value < 0 -> Styling.progress_percentage value max_value < 0) /\
  (0 <= value -> 0 <= Styling.progress_percentage value max_value).
Proof.
  unfold Styling.progress_percentage.
  destruct (Qltb 0 max_value) eqn:Hm.
  - apply Qltb_true in Hm. cbv zeta.
    assert (Hp : forall c, c * max_value <= value * 100 <-> c <= value / max_value * 100).
    { intros c. split; intros H.
      - setoid_replace (value / max_value * 100) with (value * 100 / max_value)
          by (field; lra).
        apply Qle_shift_div_l; [exact Hm|exact H].
      - setoid_replace (value / max_value * 100) with (value * 100 / max_value) in H
          by (field; lra).
        apply (Qmult_le_r _ _ max_value Hm) in H.
        setoid_replace (value * 100 / max_value * max_value) with (value * 100) in H
          by (field; lra).
        exact H. }
    set (P := value / max_value * 100) in *.
    destruct (Qltb 100 P) eqn:Hc.
    + apply Qltb_true in Hc.
      assert (H1 : 100 * max_value <= value * 100) by (apply Hp; lra).
      split; [lra|]. split; [|split; [|split]].
      * split; [intros _; split; lra | intros _; reflexivity].
      * intros H. exfalso. lra.
      * intros _ N. exfalso. lra.
      * intros _. lra.
    + apply Qltb_false in Hc.
      split; [exact Hc|]. split; [|split; [|split]].
      * split.
        -- intros H. assert (H1 : 100 * max_value <= value * 100) by (apply Hp; lra).
           split; lra.
        -- intros [_ H]. apply Qle_antisym; [exact Hc|]. apply Hp. lra.
      * intros H. exfalso. lra.
      * intros _ N. destruct (Qlt_le_dec P 0) as [L|L]; [exact L|].
        apply Hp in L. exfalso. lra.
      * intros N. apply Hp. lra.
  - apply Qltb_false in Hm.
    split; [lra|]. split; [|split; [|split]].
    + split; [intros H; exfalso; lra | intros [H _]; exfalso; lra].
    + intros _. reflexivity.
    + intros H. exfalso. lra.
    + intros _. lra.
Qed.

End Cards.
(** ** Anomalous days *)

Section AnomalousDays.
Import Anomalies.

Lemma insert_Z_perm (x : Z) (l : list Z) : Permutation (insert_Z x l) (x :: l).
Proof.
  induction l as [|y l IH]; [reflexivity|]. cbn [insert_Z].
  destruct (Z.ltb y x); [|reflexivity].
  rewrite IH. apply perm_swap.
Qed.

Lemma sort_Z_perm (l : list Z) : Permutation (sort_Z l) l.
Proof.
  induction l as [|x l IH]; [reflexivity|].
  unfold sort_Z. cbn [fold_right]. fold (sort_Z l).
  rewrite insert_Z_perm. now constructor.
Qed.

Lemma insert_Z_sorted (x : Z) (l : list Z) :
  StronglySorted Z.le l -> StronglySorted Z.le (insert_Z x l).
Proof.
  induction l as [|y l IH]; intros Hs; cbn [insert_Z].
  - repeat constructor.
  - inversion Hs as [|? ? Hl Hy]. clear Hs.
    destruct (Z.ltb_spec y x) as [Hlt|Hge].
    + constructor; [now apply IH|].
      apply (Permutation_Forall (Permutation_sym (insert_Z_perm x l))).
      constructor; [lia | exact Hy].
    + constructor; [now constructor|].
      constructor; [exact Hge|].
      eapply Forall_impl; [|exact Hy]. cbv beta. intros z Hz. lia.
Qed.

Lemma sort_Z_sorted (l : list Z) : StronglySorted Z.le (sort_Z l).
Proof.
  induction l as [|x l IH]; [constructor|].
  unfold sort_Z. cbn [fold_right]. now apply insert_Z_sorted.
Qed.

(** The two quartiles of one, two and three values in ascending order. *)
Lemma quartiles_of_one (vs : list Z) (a : Z) :
  sort_Z vs = [a] ->
  exists q1 q3, quantile (1 # 4) vs = Fin q1 /\ quantile (3 # 4) vs = Fin q3 /\
                q1 == inject_Z a /\ q3 == inject_Z a.
Proof.
  intros E. unfold quantile. rewrite E. cbv zeta.
  do 2 eexists. split; [reflexivity|]. split; [reflexivity|].
  cbn [List.length].
  change (Qfloor (inject_Z (Z.of_nat 1 - 1) * (1 # 4))) with 0%Z.
  change (Qfloor (inject_Z (Z.of_nat 1 - 1) * (3 # 4))) with 0%Z.
  cbn [Z.to_nat nth].
  split; unfold Qeq, Qplus, Qminus, Qmult, Qopp, inject_Z; cbn; lia.
Qed.

Lemma quartiles_of_two (vs : list Z) (a b : Z) :
  sort_Z vs = [a; b] ->
  exists q1 q3, quantile (1 # 4) vs = Fin q1 /\ quantile (3 # 4) vs = Fin q3 /\
                q1 == inject_Z a + (inject_Z b - inject_Z a) * (1 # 4) /\
                q3 == inject_Z a + (inject_Z b - inject_Z a) * (3 # 4).
Proof.
  intros E. unfold quantile. rewrite E. cbv zeta.
  do 2 eexists. split; [reflexivity|]. split; [reflexivity|].
  cbn [List.length].
  change (Qfloor (inject_Z (Z.of_nat 2 - 1) * (1 # 4))) with 0%Z.
  change (Qfloor (inject_Z (Z.of_nat 2 - 1) * (3 # 4))) with 0%Z.
  cbn [Z.to_nat nth].
  split; unfold Qeq, Qplus, Qminus, Qmult, Qopp, inject_Z; cbn; lia.
Qed.

Lemma quartiles_of_three (vs : list Z) (a b c : Z) :
  sort_Z vs = [a; b; c] ->
  exists q1 q3, quantile (1 # 4) vs = Fin q1 /\ quantile (3 # 4) vs = Fin q3 /\
                q1 == inject_Z a + (inject_Z b - inject_Z a) * (1 # 2) /\
                q3 == inject_Z b + (inject_Z c - inject_Z b) * (1 # 2).
Proof.
  intros E. unfold quantile. rewrite E. cbv zeta.
  do 2 eexists. split; [reflexivity|]. split; [reflexivity|].
  cbn [List.length].
  change (Qfloor (inject_Z (Z.of_nat 3 - 1) * (1 # 4))) with 0%Z.
  change (Qfloor (inject_Z (Z.of_nat 3 - 1) * (3 # 4))) with 1%Z.
  change (Z.to_nat 0) with 0%nat. change (Z.to_nat 1) with 1%nat.
  cbn [nth].
  split; unfold Qeq, Qplus, Qminus, Qmult, Qopp, inject_Z; cbn; lia.
Qed.

Lemma nth_const (l : list Z) (v d : Z) (i : nat) :
  (forall y, In y l -> y = v) -> d = v -> nth i l d = v.
Proof.
  intros Hl Hd. destruct (nth_in_or_default i l d) as [H|H].
  - now apply Hl.
  - now rewrite H.
Qed.

Lemma quantile_const (q : Q) (vs : list Z) (v : Z) :
  vs <> [] -> (forall y, In y vs -> y = v) ->
  exists t, quantile q vs = Fin t /\ t == inject_Z v.
Proof.
  intros Hne Hall. unfold quantile. cbv zeta.
  pose proof (sort_Z_perm vs) as Hp.
  assert (Hs : forall y, In y (sort_Z vs) -> y = v).
  { intros y Hy. apply Hall. now apply (Permutation_in _ Hp). }
  destruct (sort_Z vs) as [|x s] eqn:E.
  { apply Permutation_nil in Hp. congruence. }
  cbv beta iota.
  set (lo := Z.to_nat _). set (frac := (_ - inject_Z (Qfloor _))%Q).
  assert (Ha : nth lo (x :: s) x = v).
  { apply nth_const; [exact Hs|]. apply Hs. now left. }
  assert (Hb : nth (S lo) (x :: s) (nth lo (x :: s) x) = v).
  { apply nth_const; [exact Hs|exact Ha]. }
  eexists. split; [reflexivity|]. rewrite Hb, Ha. ring.
Qed.

Lemma filter_none {A} (f : A -> bool) (l : list A) :
  (forall x, In x l -> f x = false) -> filter f l = [].
Proof.
  induction l as [|x l IH]; intros H; [reflexivity|]. cbn [filter].
  rewrite (H x (or_introl eq_refl)). apply IH. intros y Hy. apply H. now right.
Qed.

(** A value between the bounds computed from the quartiles is not flagged. *)
Lemma within_bounds (vs : list Z) (q1 q3 : Q) (v : Z) :
  quantile (1 # 4) vs = Fin q1 -> quantile (3 # 4) vs = Fin q3 ->
  q1 - (3 # 2) * (q3 - q1) <= inject_Z v ->
  inject_Z v <= q3 + (3 # 2) * (q3 - q1) ->
  ((of_Z v <? lower_bound vs)%F || (of_Z v >? upper_bound vs)%F) = false.
Proof.
  intros H1 H3 Hl Hu. unfold lower_bound, upper_bound. cbv zeta.
  rewrite H1, H3. unfold of_Z, fgtb. cbn [fsub fneg fmul fadd fltb].
  apply Bool.orb_false_iff. split; apply Qltb_false; lra.
Qed.

Lemma few_values_within_bounds (vs : list Z) :
  (List.length vs < 4)%nat ->
  forall v, In v vs ->
    ((of_Z v <? lower_bound vs)%F || (of_Z v >? upper_bound vs)%F) = false.
Proof.
  intros Hlen v Hv.
  pose proof (sort_Z_perm vs) as Hp. pose proof (sort_Z_sorted vs) as Hs.
  pose proof (Permutation_length Hp) as Hl.
  apply (Permutation_in _ (Permutation_sym Hp)) in Hv.
  destruct (sort_Z vs) as [|a [|b [|c [|d s]]]] eqn:E; cbn in Hl;
    [contradiction| | | |lia].
  - destruct (quartiles_of_one vs a E) as (q1 & q3 & H1 & H3 & E1 & E3).
    destruct Hv as [<-|[]].
    apply (within_bounds vs q1 q3 a H1 H3); lra.
  - destruct (quartiles_of_two vs a b E) as (q1 & q3 & H1 & H3 & E1 & E3).
    inversion Hs as [|? ? _ Hab]. inversion Hab as [|? ? Hle _].
    rewrite Zle_Qle in Hle.
    destruct Hv as [<-|[<-|[]]];
      apply (within_bounds vs q1 q3 _ H1 H3); lra.
  - destruct (quartiles_of_three vs a b c E) as (q1 & q3 & H1 & H3 & E1 & E3).
    inversion Hs as [|? ? Hs' Hab]. inversion Hab as [|? ? Hle1 Hac].
    inversion Hac as [|? ? Hle2 _].
    inversion Hs' as [|? ? _ Hbc]. inversion Hbc as [|? ? Hle3 _].
    rewrite Zle_Qle in Hle1, Hle2, Hle3.
    destruct Hv as [<-|[<-|[<-|[]]]];
      apply (within_bounds vs q1 q3 _ H1 H3); lra.
Qed.

Lemma equal_values_within_bounds (vs : list Z) (v : Z) :
  (forall y, In y vs -> y = v) ->
  forall x, In x vs ->
    ((of_Z x <? lower_bound vs)%F || (of_Z x >? upper_bound vs)%F) = false.
Proof.
  intros Hall x Hx.
  assert (Hne : vs <> []) by (intros ->; contradiction).
  destruct (quantile_const (1 # 4) vs v Hne Hall) as (q1 & H1 & E1).
  destruct (quantile_const (3 # 4) vs v Hne Hall) as (q3 & H3 & E3).
  rewrite (Hall x Hx).
  apply (within_bounds vs q1 q3 v H1 H3); lra.
Qed.

Lemma detect_anomalous_days_of_totals (df : DataFrame) :
  detect_anomalous_days df
  = match daily_totals df with
    | Some daily => anomalies_of daily
    | None => []
    end.
Proof.
  unfold detect_anomalous_days, daily_totals, anomalies_body.
  destruct (AdvancedTemporalAnalysis._find_date_column df) as [dc|]; [|reflexivity].
  destruct (AdvancedTemporalAnalysis._find_enrollment_column df) as [ec|];
    [|reflexivity].
  destruct (get_col dc (cols df)) as [dates|]; [|reflexivity].
  destruct (get_col ec (cols df)) as [enrol|]; [|reflexivity].
  destruct (groupby_col_sum dates enrol) as [g|]; [|reflexivity].
  cbn [bind]. destruct (String.eqb dc ec); reflexivity.
Qed.

(** X28.  [detect_anomalous_days] flags no day when the frame has fewer than
    four distinct dates, and none when all daily totals are equal: with so
    few points the interquartile fences always enclose every total. *)
Theorem no_anomalies_among_few_days (df : DataFrame) (daily : list (pyobj * Z)) :
  daily_totals df = Some daily ->
  (List.length daily < 4)%nat \/ (exists v, forall row, In row daily -> snd row = v) ->
  detect_anomalous_days df = [].
Proof.
  intros Hd Hc. rewrite detect_anomalous_days_of_totals, Hd.
  unfold anomalies_of. cbv zeta. apply filter_none. intros row Hrow.
  destruct Hc as [Hlen|[v Hv]].
  - apply few_values_within_bounds; [now rewrite length_map|].
    now apply in_map.
  - apply (equal_values_within_bounds _ v); [|now apply in_map].
    intros y Hy. apply in_map_iff in Hy. destruct Hy as (r0 & <- & Hr).
    now apply Hv.
Qed.

(** Two days. *)
Lemma no_anomalies_among_few_days_witness :
  detect_anomalous_days (two_day_frame 10 1000) = [].
Proof.
  destruct (daily_totals (two_day_frame 10 1000)) as [daily|] eqn:Hd;
    [|discriminate Hd].
  apply (no_anomalies_among_few_days (two_day_frame 10 1000) daily Hd).
  left. injection Hd as <-. cbn. lia.
Defined.

(** With four days a total can fall outside the fences: of the totals
    0, 1, 1, 1 the first is flagged. *)
Lemma four_days_can_hold_an_anomaly :
  detect_anomalous_days
    (mkDF 4 [("date", IntCol [Some 1%Z; Some 2%Z; Some 3%Z; Some 4%Z]);
             ("total", IntCol [Some 0%Z; Some 1%Z; Some 1%Z; Some 1%Z])])
  = [(OInt 1, 0%Z)].
Proof. reflexivity. Qed.

End AnomalousDays.
